(** * GSConnect Bluetooth channel service (src/service/protocol/bluetooth.js)

    A shallow embedding of [ChannelService]: the mirror of the org.bluez
    object graph ([_onInterfacesAdded], [_onInterfacesRemoved]), the profile
    life cycle driven by the daemon's name owner ([_onNameOwnerChanged]),
    the connection attempts ([_connectDevice], [broadcast]), the inbound
    connection handler ([NewConnection], [RequestDisconnection]) and the
    teardown ([destroy]).

    Objects of the JS heap that are shared by reference (the device proxies,
    the multiplexed connections) live in explicit stores indexed by [nat];
    the [Map] of tracked devices is an association list in insertion order,
    as a JS [Map] iterates.  Every bus call and log line the code issues is
    recorded in [trace], most recent first.  The results of asynchronous
    bus round trips are inputs of the operations; each handler is run to
    completion. *)

From Stdlib Require Import String List Bool Arith Lia.
Import ListNotations.
Open Scope string_scope.

(** ** Constants *)

Definition DEVICE_IFACE : string := "org.bluez.Device1".

(** [SERVICE_RECORD] is the content of the bundled resource
    [${gsconnect.app_id}.sdp.xml]; the model names it by that resource. *)
Definition SERVICE_RECORD : string :=
  "resource:org.gnome.Shell.Extensions.GSConnect.sdp.xml".

Definition SERVICE_UUID : string := "185f3df4-3268-4e3f-9fca-d4d5059915bd".

(** GLib variants used in the option dictionary. *)
Inductive variant :=
| VBool (b : bool)
| VString (s : string).

Definition SERVICE_PROFILE : list (string * variant) :=
  [("RequireAuthorization", VBool false);
   ("RequireAuthentication", VBool true);
   ("ServiceRecord", VString SERVICE_RECORD)].

(** Object path of the exported org.bluez.Profile1 interface. *)
Definition PROFILE_PATH : string :=
  "/org/gnome/Shell/Extensions/GSConnect/Bluetooth".

(** ** JS values needed for the guard of [vfunc_g_signal] *)

Inductive jsval :=
| JNull
| JBool (b : bool)
| JString (s : string).

(** [!v] *)
Definition js_not (v : jsval) : bool :=
  match v with
  | JNull => true
  | JBool b => negb b
  | JString s => String.eqb s ""
  end.

(** [a === b] *)
Definition js_strict_eq (a b : jsval) : bool :=
  match a, b with
  | JNull, JNull => true
  | JBool x, JBool y => Bool.eqb x y
  | JString x, JString y => String.eqb x y
  | _, _ => false
  end.

(** [this.g_name_owner] is [null] or a unique bus name. *)
Definition owner_val (o : option string) : jsval :=
  match o with None => JNull | Some n => JString n end.

(** ** Data model *)

(** The org.bluez.Device1 properties the code reads from a proxy. *)
Record devinfo := {
  Address : string;
  Alias : string;
  Paired : bool;
  Connected : bool;
  ServicesResolved : bool;
  UUIDs : list string
}.

(** A device proxy built by [_getDeviceProxy]. *)
Record proxy := {
  g_object_path : string;
  info : devinfo;
  _muxer : option nat;                (** [null] or a [Multiplex.Connection] *)
  deviceChangedConnected : bool       (** [__deviceChangedId] still connected *)
}.

(** A [Multiplex.Connection]; [mx_owner] is the proxy whose [close] its
    cancellable was connected to. *)
Record muxer := {
  mx_owner : nat;
  mx_open : bool
}.

(** The identity a channel negotiates; only the fields the code touches. *)
Record identity := {
  deviceId : string;
  bluetoothHost : option string;
  bluetoothPath : option string
}.

(** Bus calls, collaborator calls and log lines. *)
Inductive effect :=
| E_ConnectProfile (object_path uuid : string)
| E_RegisterProfile (profile uuid : string) (options : list (string * variant))
| E_GetManagedObjects
| E_MuxerClose (m : nat)
| E_EnsureDevice (ident : identity)
| E_Attach (m : nat) (device : string)
| E_ProxyDisconnect (p : nat)
| E_Disconnect (handler : option nat)
| E_ProfileDestroy
| E_ProfileManagerDestroy
| E_NotifyDevices
| E_Warning (msg : string)
| E_LogError (msg : string).

Record state := {
  g_name_owner : option string;
  _devices : list (string * nat);     (** [this._devices] *)
  proxies : list proxy;               (** heap of device proxies *)
  muxers : list muxer;                (** heap of multiplexed connections *)
  _profile : option string;           (** exported Profile1, by object path *)
  _profileManager : bool;             (** ProfileManager1 proxy present *)
  _nameOwnerChangedId : option nat;
  nameOwnerWatched : bool;            (** that handler still connected *)
  registered : bool;                  (** the daemon holds our profile *)
  trace : list effect                 (** most recent first *)
}.

(** Answers of the bus round trips. *)
Record bus := {
  device_proxy : string -> option devinfo;   (** [_getDeviceProxy]; [None]: it threw *)
  register_ok : bool;                        (** [RegisterProfile] resolved *)
  managed_objects : option (list (string * list string))
                                             (** [GetManagedObjects]; [None]: rejected *)
}.

(** A property change set as [changed.full_unpack()] gives it; [None] is an
    absent key. *)
Record changes := {
  ch_Paired : option bool;
  ch_Connected : option bool;
  ch_ServicesResolved : option bool;
  ch_UUIDs : option (list string)
}.

(** ** Helpers: the Map, the heaps, state updates *)

Fixpoint map_get (k : string) (m : list (string * nat)) : option nat :=
  match m with
  | [] => None
  | (k', v) :: t => if String.eqb k k' then Some v else map_get k t
  end.

Definition map_has (k : string) (m : list (string * nat)) : bool :=
  match map_get k m with Some _ => true | None => false end.

(** [Map.prototype.set]: an existing key keeps its position. *)
Fixpoint map_set (k : string) (v : nat) (m : list (string * nat)) :=
  match m with
  | [] => [(k, v)]
  | (k', v') :: t =>
      if String.eqb k k' then (k, v) :: t else (k', v') :: map_set k v t
  end.

Fixpoint map_delete (k : string) (m : list (string * nat)) :=
  match m with
  | [] => []
  | (k', v') :: t => if String.eqb k k' then t else (k', v') :: map_delete k t
  end.

Fixpoint list_update {A} (n : nat) (f : A -> A) (l : list A) : list A :=
  match l, n with
  | [], _ => []
  | x :: t, O => f x :: t
  | x :: t, S n' => x :: list_update n' f t
  end.

Definition emit (e : effect) (s : state) : state :=
  {| g_name_owner := g_name_owner s; _devices := _devices s;
     proxies := proxies s; muxers := muxers s; _profile := _profile s;
     _profileManager := _profileManager s;
     _nameOwnerChangedId := _nameOwnerChangedId s;
     nameOwnerWatched := nameOwnerWatched s; registered := registered s;
     trace := e :: trace s |}.

Definition set_devices (d : list (string * nat)) (s : state) : state :=
  {| g_name_owner := g_name_owner s; _devices := d;
     proxies := proxies s; muxers := muxers s; _profile := _profile s;
     _profileManager := _profileManager s;
     _nameOwnerChangedId := _nameOwnerChangedId s;
     nameOwnerWatched := nameOwnerWatched s; registered := registered s;
     trace := trace s |}.

Definition set_proxies (ps : list proxy) (s : state) : state :=
  {| g_name_owner := g_name_owner s; _devices := _devices s;
     proxies := ps; muxers := muxers s; _profile := _profile s;
     _profileManager := _profileManager s;
     _nameOwnerChangedId := _nameOwnerChangedId s;
     nameOwnerWatched := nameOwnerWatched s; registered := registered s;
     trace := trace s |}.

Definition set_muxers (ms : list muxer) (s : state) : state :=
  {| g_name_owner := g_name_owner s; _devices := _devices s;
     proxies := proxies s; muxers := ms; _profile := _profile s;
     _profileManager := _profileManager s;
     _nameOwnerChangedId := _nameOwnerChangedId s;
     nameOwnerWatched := nameOwnerWatched s; registered := registered s;
     trace := trace s |}.

Definition set_registered (b : bool) (s : state) : state :=
  {| g_name_owner := g_name_owner s; _devices := _devices s;
     proxies := proxies s; muxers := muxers s; _profile := _profile s;
     _profileManager := _profileManager s;
     _nameOwnerChangedId := _nameOwnerChangedId s;
     nameOwnerWatched := nameOwnerWatched s; registered := b;
     trace := trace s |}.

Definition set_owner (o : option string) (s : state) : state :=
  {| g_name_owner := o; _devices := _devices s;
     proxies := proxies s; muxers := muxers s; _profile := _profile s;
     _profileManager := _profileManager s;
     _nameOwnerChangedId := _nameOwnerChangedId s;
     nameOwnerWatched := nameOwnerWatched s; registered := registered s;
     trace := trace s |}.

(** [destroy] only: drop the name-owner handler and the manager proxy. *)
Definition set_teardown (watched pm : bool) (s : state) : state :=
  {| g_name_owner := g_name_owner s; _devices := _devices s;
     proxies := proxies s; muxers := muxers s; _profile := _profile s;
     _profileManager := pm;
     _nameOwnerChangedId := _nameOwnerChangedId s;
     nameOwnerWatched := watched; registered := registered s;
     trace := trace s |}.

Definition set_proxy_muxer (m : option nat) (px : proxy) : proxy :=
  {| g_object_path := g_object_path px; info := info px; _muxer := m;
     deviceChangedConnected := deviceChangedConnected px |}.

Definition set_proxy_unwatched (px : proxy) : proxy :=
  {| g_object_path := g_object_path px; info := info px; _muxer := _muxer px;
     deviceChangedConnected := false |}.

Definition close_muxer (mx : muxer) : muxer :=
  {| mx_owner := mx_owner mx; mx_open := false |}.

(** The property cache of a proxy, refreshed before [g-properties-changed]
    is emitted. *)
Definition upd (o : option bool) (b : bool) : bool :=
  match o with Some b' => b' | None => b end.

Definition apply_changes (ch : changes) (px : proxy) : proxy :=
  let d := info px in
  {| g_object_path := g_object_path px;
     info := {| Address := Address d; Alias := Alias d;
                Paired := upd (ch_Paired ch) (Paired d);
                Connected := upd (ch_Connected ch) (Connected d);
                ServicesResolved := upd (ch_ServicesResolved ch) (ServicesResolved d);
                UUIDs := match ch_UUIDs ch with Some u => u | None => UUIDs d end |};
     _muxer := _muxer px;
     deviceChangedConnected := deviceChangedConnected px |}.

(** ** Operations of [ChannelService] *)

(** [proxy.close], installed on every proxy by [_getDeviceProxy]. *)
Definition proxy_close (p : nat) (s : state) : state :=
  match nth_error (proxies s) p with
  | Some px =>
      match _muxer px with
      | Some m =>
          set_proxies (list_update p (set_proxy_muxer None) (proxies s))
            (set_muxers (list_update m close_muxer (muxers s))
               (emit (E_MuxerClose m) s))
      | None => s
      end
  | None => s
  end.

Definition RequestDisconnection (object_path : string) (s : state) : state :=
  match map_get object_path (_devices s) with
  | Some p => proxy_close p s
  | None => s
  end.

(** [_connectDevice]: the result of [ConnectProfile] is ignored. *)
Definition _connectDevice (p : nat) (s : state) : state :=
  match nth_error (proxies s) p with
  | Some px =>
      match _muxer px with
      | Some _ => s
      | None =>
          if Paired (info px)
          then emit (E_ConnectProfile (g_object_path px) SERVICE_UUID) s
          else s
      end
  | None => s
  end.

Definition broadcast (object_path : string) (s : state) : state :=
  match map_get object_path (_devices s) with
  | Some p => _connectDevice p s
  | None => s
  end.

Definition _onDeviceChanged (p : nat) (changed : changes) (s : state) : state :=
  match nth_error (proxies s) p with
  | None => s
  | Some px =>
      match ch_Connected changed with
      | Some true => _connectDevice p s
      | Some false => RequestDisconnection (g_object_path px) s
      | None =>
          match ch_ServicesResolved changed with
          | Some true => _connectDevice p s
          | _ => s
          end
      end
  end.

(** One iteration of the loop of [_onInterfacesAdded]. *)
Definition added_iface (b : bus) (object_path interface_name : string)
    (s : state) : state :=
  if negb (String.eqb interface_name DEVICE_IFACE) then s
  else if map_has object_path (_devices s) then s
  else
    match device_proxy b object_path with
    | None => emit (E_Warning object_path) s
    | Some d =>
        let pid := length (proxies s) in
        let px := {| g_object_path := object_path; info := d; _muxer := None;
                     deviceChangedConnected := true |} in
        emit E_NotifyDevices
          (set_devices (map_set object_path pid (_devices s))
             (set_proxies (proxies s ++ [px]) s))
    end.

Fixpoint _onInterfacesAdded (b : bus) (object_path : string)
    (interfaces : list string) (s : state) : state :=
  match interfaces with
  | [] => s
  | i :: rest => _onInterfacesAdded b object_path rest (added_iface b object_path i s)
  end.

(** One iteration of the loop of [_onInterfacesRemoved]. *)
Definition removed_iface (object_path interface_name : string) (s : state) : state :=
  if negb (String.eqb interface_name DEVICE_IFACE) then s
  else
    match map_get object_path (_devices s) with
    | None => s
    | Some p =>
        let s1 := set_proxies (list_update p set_proxy_unwatched (proxies s))
                    (emit (E_ProxyDisconnect p) s) in
        let s2 := RequestDisconnection object_path s1 in
        emit E_NotifyDevices (set_devices (map_delete object_path (_devices s2)) s2)
    end.

Fixpoint removed_loop (object_path : string) (interfaces : list string)
    (s : state) : state :=
  match interfaces with
  | [] => s
  | i :: rest => removed_loop object_path rest (removed_iface object_path i s)
  end.

Definition _onInterfacesRemoved (object_path : string) (interfaces : list string)
    (s : state) : state :=
  match interfaces with
  | [] => s
  | _ => removed_loop object_path interfaces s
  end.

(** The loop of the unbind branch of [_onNameOwnerChanged]: disconnect the
    handler, delete the entry (keyed by the proxy's [g_object_path]). *)
Fixpoint unbind_loop (entries : list (string * nat)) (s : state) : state :=
  match entries with
  | [] => s
  | (object_path, p) :: rest =>
      let s1 := set_proxies (list_update p set_proxy_unwatched (proxies s))
                  (emit (E_ProxyDisconnect p) s) in
      unbind_loop rest (set_devices (map_delete object_path (_devices s1)) s1)
  end.

Fixpoint add_objects (b : bus) (objects : list (string * list string))
    (s : state) : state :=
  match objects with
  | [] => s
  | (object_path, object) :: rest =>
      add_objects b rest (_onInterfacesAdded b object_path object s)
  end.

Definition _onNameOwnerChanged (b : bus) (s : state) : state :=
  match g_name_owner s with
  | None =>
      let s1 := emit E_GetManagedObjects (unbind_loop (_devices s) s) in
      match managed_objects b with
      | Some _ => s1
      | None => emit (E_LogError "GetManagedObjects") s1
      end
  | Some _ =>
      match _profile s with
      | Some path =>
          if negb (_profileManager s) then emit (E_LogError "TypeError") s else
          let s1 := emit (E_RegisterProfile path SERVICE_UUID SERVICE_PROFILE) s in
          if negb (register_ok b) then emit (E_LogError "RegisterProfile") s1 else
          let s2 := emit E_GetManagedObjects (set_registered true s1) in
          match managed_objects b with
          | None => emit (E_LogError "GetManagedObjects") s2
          | Some objects => add_objects b objects s2
          end
      | None => emit (E_LogError "TypeError") s
      end
  end.

Definition vfunc_g_signal (b : bus) (signal_name object_path : string)
    (interfaces : list string) (s : state) : state :=
  if js_strict_eq (JBool (js_not (owner_val (g_name_owner s)))) JNull then s
  else if String.eqb signal_name "InterfacesAdded"
  then _onInterfacesAdded b object_path interfaces s
  else if String.eqb signal_name "InterfacesRemoved"
  then _onInterfacesRemoved object_path interfaces s
  else s.

(** Settlement of the [NewConnection] promise. *)
Inductive outcome := Resolved | Rejected.

(** [NewConnection]: [negotiated] is the identity [channel.negotiate] yields
    ([None]: it rejected), [ensured] the device [_ensureDevice] yields.  An
    unknown [object_path] leaves [bludev] undefined: [bludev._muxer = ...]
    throws, and so does [bludev.close()] in the catch block. *)
Definition NewConnection (object_path : string) (fd : nat)
    (negotiated : option identity) (ensured : option string) (s : state)
    : state * outcome :=
  match map_get object_path (_devices s) with
  | None => (s, Rejected)
  | Some p =>
      match nth_error (proxies s) p with
      | None => (s, Rejected)
      | Some px =>
          let m := length (muxers s) in
          let s1 := set_proxies (list_update p (set_proxy_muxer (Some m)) (proxies s))
                      (set_muxers (muxers s ++ [{| mx_owner := p; mx_open := true |}]) s) in
          match negotiated with
          | None => (emit (E_Warning (Alias (info px))) (proxy_close p s1), Resolved)
          | Some id0 =>
              let ident := {| deviceId := deviceId id0;
                              bluetoothHost := Some (Address (info px));
                              bluetoothPath := Some (g_object_path px) |} in
              let s2 := emit (E_EnsureDevice ident) s1 in
              match ensured with
              | None => (emit (E_Warning (Alias (info px))) (proxy_close p s2), Resolved)
              | Some device => (emit (E_Attach m device) s2, Resolved)
              end
          end
      end
  end.

Fixpoint close_all (entries : list (string * nat)) (s : state) : state :=
  match entries with
  | [] => s
  | (_, p) :: rest => close_all rest (proxy_close p s)
  end.

Definition destroy (s : state) : state :=
  let s1 := set_teardown false (_profileManager s)
              (emit (E_Disconnect (_nameOwnerChangedId s)) s) in
  let s2 := close_all (_devices s1) s1 in
  let s3 := match _profile s2 with
            | Some _ => emit E_ProfileDestroy s2
            | None => s2
            end in
  if _profileManager s3
  then set_teardown (nameOwnerWatched s3) false (emit E_ProfileManagerDestroy s3)
  else s3.

(** The state [_init_async] reaches before its own [_onNameOwnerChanged()]
    call: manager proxy built, profile exported, name owner watched. *)
Definition initial (owner : option string) : state :=
  {| g_name_owner := owner; _devices := []; proxies := []; muxers := [];
     _profile := Some PROFILE_PATH; _profileManager := true;
     _nameOwnerChangedId := Some 1; nameOwnerWatched := true;
     registered := false; trace := [] |}.

Definition _init_async (b : bus) (owner : option string) : state :=
  _onNameOwnerChanged b (initial owner).

(** ** Events delivered to the service *)

Inductive event :=
| EvSignal (signal_name object_path : string) (interfaces : list string)
| EvPropertiesChanged (p : nat) (changed : changes)
| EvNameOwner (owner : option string)
| EvNewConnection (object_path : string) (fd : nat)
    (negotiated : option identity) (ensured : option string)
| EvRequestDisconnection (object_path : string)
| EvBroadcast (object_path : string)
| EvDestroy.

(** The daemon drops our profile when it goes away; a proxy's property cache
    is refreshed before its [g-properties-changed] handler runs. *)
Definition step (b : bus) (e : event) (s : state) : state :=
  match e with
  | EvSignal n object_path interfaces => vfunc_g_signal b n object_path interfaces s
  | EvPropertiesChanged p changed =>
      match nth_error (proxies s) p with
      | None => s
      | Some px =>
          let s1 := set_proxies (list_update p (apply_changes changed) (proxies s)) s in
          if deviceChangedConnected px then _onDeviceChanged p changed s1 else s1
      end
  | EvNameOwner o =>
      let s1 := match o with
                | None => set_registered false (set_owner o s)
                | Some _ => set_owner o s
                end in
      if nameOwnerWatched s1 then _onNameOwnerChanged b s1 else s1
  | EvNewConnection object_path fd negotiated ensured =>
      fst (NewConnection object_path fd negotiated ensured s)
  | EvRequestDisconnection object_path => RequestDisconnection object_path s
  | EvBroadcast object_path => broadcast object_path s
  | EvDestroy => destroy s
  end.

Fixpoint run (b : bus) (events : list event) (s : state) : state :=
  match events with
  | [] => s
  | e :: rest => run b rest (step b e s)
  end.

(** The [devices] getter. *)
Definition devices (s : state) : list proxy :=
  filter (fun px => existsb (String.eqb SERVICE_UUID) (UUIDs (info px)))
    (flat_map (fun '(_, p) => match nth_error (proxies s) p with
                              | Some px => [px] | None => [] end) (_devices s)).

(** Open multiplexed connections created for proxy [p]. *)
Definition open_channels (p : nat) (s : state) : nat :=
  length (filter (fun mx => Nat.eqb (mx_owner mx) p && mx_open mx) (muxers s)).

(** ** Observations on the trace *)

Definition is_ensure (e : effect) : bool :=
  match e with E_EnsureDevice _ => true | _ => false end.

Definition is_attach (e : effect) : bool :=
  match e with E_Attach _ _ => true | _ => false end.

Definition ensure_calls (t : list effect) : nat := length (filter is_ensure t).
Definition attach_calls (t : list effect) : nat := length (filter is_attach t).

(** The [RegisterProfile] requests of a trace, most recent first. *)
Fixpoint registrations (t : list effect)
    : list (string * string * list (string * variant)) :=
  match t with
  | [] => []
  | E_RegisterProfile p u o :: rest => (p, u, o) :: registrations rest
  | _ :: rest => registrations rest
  end.

(** [s'] issued no registration request since [s] and exports the same
    profile. *)
Definition no_new_registration (s s' : state) : Prop :=
  _profile s' = _profile s /\ registrations (trace s') = registrations (trace s).

(** ** The mirror as section 4.1 of the spec words it

    Spec-level model, to be compared with [_onInterfacesAdded] and
    [_onInterfacesRemoved]: an add of an object exposing the device
    interface tracks it (unless materialising its proxy fails); a removal
    whose interface list includes the device interface untracks it; nothing
    else changes the tracked set. *)
Definition spec_mirror_step (b : bus) (e : event) (tracked : string -> bool)
    (path : string) : bool :=
  match e with
  | EvSignal n q interfaces =>
      if String.eqb n "InterfacesAdded" then
        tracked path ||
        (String.eqb path q
         && existsb (fun i => String.eqb i DEVICE_IFACE) interfaces
         && match device_proxy b q with Some _ => true | None => false end)
      else if String.eqb n "InterfacesRemoved" then
        tracked path &&
        negb (String.eqb path q
              && existsb (fun i => String.eqb i DEVICE_IFACE) interfaces)
      else tracked path
  | _ => tracked path
  end.

Fixpoint spec_mirror_tracked (b : bus) (events : list event)
    (tracked : string -> bool) : string -> bool :=
  match events with
  | [] => tracked
  | e :: rest => spec_mirror_tracked b rest (spec_mirror_step b e tracked)
  end.

(** Events of the mirror: object-manager signals and property changes. *)
Definition mirror_event (e : event) : bool :=
  match e with EvSignal _ _ _ | EvPropertiesChanged _ _ => true | _ => false end.

(** ** Whole-state invariants and repeated teardown *)

(** Every tracked path names an existing proxy whose [g_object_path] is that
    path and whose [g-properties-changed] handler is connected; the Map
    holds each path once. *)
Definition tracked_ok (s : state) : Prop :=
  NoDup (map fst (_devices s)) /\
  forall k p, In (k, p) (_devices s) ->
    exists px, nth_error (proxies s) p = Some px /\ g_object_path px = k /\
               deviceChangedConnected px = true.

(** Every channel reference a proxy holds names an open multiplexed
    connection created for that proxy. *)
Definition channel_ok (s : state) : Prop :=
  forall p px m, nth_error (proxies s) p = Some px -> _muxer px = Some m ->
    exists mx, nth_error (muxers s) m = Some mx /\ mx_owner mx = p /\ mx_open mx = true.

Fixpoint destroy_n (n : nat) (s : state) : state :=
  match n with O => s | S n' => destroy_n n' (destroy s) end.

Definition is_manager_destroy (e : effect) : bool :=
  match e with E_ProfileManagerDestroy => true | _ => false end.

Definition manager_destroys (t : list effect) : nat :=
  length (filter is_manager_destroy t).

(** Every operation but [destroy] is built from [emit] and the setters of
    the devices, proxies, channels, registration flag and name owner; a
    predicate closed under those is kept by all of them. *)
Definition frame_closed (P : state -> Prop) : Prop :=
  (forall e s, P s -> P (emit e s)) /\
  (forall d s, P s -> P (set_devices d s)) /\
  (forall ps s, P s -> P (set_proxies ps s)) /\
  (forall ms s, P s -> P (set_muxers ms s)) /\
  (forall r s, P s -> P (set_registered r s)) /\
  (forall o s, P s -> P (set_owner o s)).

(** [s'] keeps every proxy of [s] (same path, same handler state) and the
    same tracked devices. *)
Definition kept (s s' : state) : Prop :=
  _devices s' = _devices s /\
  forall p px, nth_error (proxies s) p = Some px ->
    exists px', nth_error (proxies s') p = Some px' /\
      g_object_path px' = g_object_path px /\
      deviceChangedConnected px' = deviceChangedConnected px.

(** ** Concrete configurations used by the witnesses *)

Definition D1 : string := "/org/bluez/hci0/dev_00_11_22_33_44_55".

Definition D1_info : devinfo :=
  {| Address := "00:11:22:33:44:55"; Alias := "Phone"; Paired := true;
     Connected := false; ServicesResolved := false; UUIDs := [SERVICE_UUID] |}.

Definition bus_with (ok : bool) : bus :=
  {| device_proxy := fun q => if String.eqb q D1 then Some D1_info else None;
     register_ok := ok;
     managed_objects := Some [(D1, [DEVICE_IFACE])] |}.

Definition ident0 : identity :=
  {| deviceId := "remote"; bluetoothHost := None; bluetoothPath := None |}.

(** After start-up against a daemon owning [:1.5], with D1 managed. *)
Definition bound_state : state := _init_async (bus_with true) (Some ":1.5").

(** D1 holding the channel of an accepted inbound connection. *)
Definition connected_state : state :=
  fst (NewConnection D1 7 (Some ident0) (Some "dev") bound_state).

(** ** Shared lemmas *)

Ltac destruct_matches :=
  repeat match goal with
         | |- context [match ?x with _ => _ end] => destruct x eqn:?
         end.

Lemma connectDevice_muxer_noop :
  forall p px m s,
    nth_error (proxies s) p = Some px -> _muxer px = Some m ->
    _connectDevice p s = s.
Proof.
  intros p px m s Hp Hm. unfold _connectDevice. rewrite Hp, Hm. reflexivity.
Qed.

Lemma guard_false : forall o, js_strict_eq (JBool (js_not (owner_val o))) JNull = false.
Proof. intros [o|]; reflexivity. Qed.

Lemma proxy_close_devices : forall p s, _devices (proxy_close p s) = _devices s.
Proof. intros p s. unfold proxy_close. destruct_matches; reflexivity. Qed.

Lemma proxy_close_profile : forall p s, _profile (proxy_close p s) = _profile s.
Proof. intros p s. unfold proxy_close. destruct_matches; reflexivity. Qed.

(** ** Claims *)

(** C10: the guard [!this.g_name_owner === null] compares a boolean with
    [null]; it is false for every name owner, so InterfacesAdded and
    InterfacesRemoved are always dispatched to their handlers, whatever the
    name-owner state. *)
Theorem vfunc_g_signal_always_dispatches :
  (forall o : option string, js_strict_eq (JBool (js_not (owner_val o))) JNull = false) /\
  (forall b s object_path interfaces,
     vfunc_g_signal b "InterfacesAdded" object_path interfaces s
       = _onInterfacesAdded b object_path interfaces s /\
     vfunc_g_signal b "InterfacesRemoved" object_path interfaces s
       = _onInterfacesRemoved object_path interfaces s).
Proof.
  split.
  - exact guard_false.
  - intros b s object_path interfaces. unfold vfunc_g_signal.
    rewrite guard_false. split; reflexivity.
Qed.

(** C3 (code bug): an inbound connection for a path missing from
    [_devices] rejects the handler's promise and leaves the whole state as
    it was: the socket made from the descriptor is never closed, the
    handler's own [warning] never runs, and neither [ensureDevice] nor
    [attach] is called. *)
Theorem NewConnection_unknown_device :
  forall object_path fd negotiated ensured s,
    map_get object_path (_devices s) = None ->
    NewConnection object_path fd negotiated ensured s = (s, Rejected).
Proof.
  intros object_path fd negotiated ensured s H. unfold NewConnection.
  rewrite H. reflexivity.
Qed.

Lemma NewConnection_unknown_device_witness :
  map_get "/org/bluez/hci0/dev_AA_BB_CC_DD_EE_FF" (_devices bound_state) = None /\
  NewConnection "/org/bluez/hci0/dev_AA_BB_CC_DD_EE_FF" 7 (Some ident0) (Some "dev")
    bound_state = (bound_state, Rejected).
Proof.
  split; [vm_compute; reflexivity |].
  apply NewConnection_unknown_device. vm_compute. reflexivity.
Defined.

(** C5 (amended): a change set carrying [Connected: true] calls
    [_connectDevice]; one carrying [Connected: false] requests disconnection
    and nothing else, whatever [ServicesResolved] says; only a change set
    without [Connected] looks at [ServicesResolved], calling [_connectDevice]
    when it is true.  [_connectDevice] is a no-op while the device holds a
    channel. *)
Theorem onDeviceChanged_dispatch :
  forall p px changed s,
    nth_error (proxies s) p = Some px ->
    (ch_Connected changed = Some true ->
       _onDeviceChanged p changed s = _connectDevice p s) /\
    (ch_Connected changed = Some false ->
       _onDeviceChanged p changed s = RequestDisconnection (g_object_path px) s) /\
    (ch_Connected changed = None -> ch_ServicesResolved changed = Some true ->
       _onDeviceChanged p changed s = _connectDevice p s) /\
    (ch_Connected changed = None -> ch_ServicesResolved changed <> Some true ->
       _onDeviceChanged p changed s = s) /\
    (forall m, _muxer px = Some m -> _connectDevice p s = s).
Proof.
  intros p px changed s Hp. unfold _onDeviceChanged. rewrite Hp.
  repeat split.
  - intros H. rewrite H. reflexivity.
  - intros H. rewrite H. reflexivity.
  - intros H1 H2. rewrite H1, H2. reflexivity.
  - intros H1 H2. rewrite H1. destruct (ch_ServicesResolved changed) as [[|]|];
      [congruence | reflexivity | reflexivity].
  - intros m Hm. exact (connectDevice_muxer_noop p px m s Hp Hm).
Qed.

Lemma onDeviceChanged_dispatch_witness :
  nth_error (proxies bound_state) 0
    = Some {| g_object_path := D1; info := D1_info; _muxer := None;
              deviceChangedConnected := true |} /\
  _onDeviceChanged 0 {| ch_Paired := None; ch_Connected := None;
                        ch_ServicesResolved := Some true; ch_UUIDs := None |}
    bound_state
  = _connectDevice 0 bound_state.
Proof.
  split; [vm_compute; reflexivity |].
  apply (onDeviceChanged_dispatch 0
           {| g_object_path := D1; info := D1_info; _muxer := None;
              deviceChangedConnected := true |}).
  - vm_compute. reflexivity.
  - reflexivity.
  - reflexivity.
Defined.

(** C5 counterexample: D1 is paired and holds no channel; a notification
    with [Connected: false] and [ServicesResolved: true] issues no
    ConnectProfile request, although [_connectDevice] would issue one. *)
Lemma onDeviceChanged_resolved_ignored :
  let ch := {| ch_Paired := None; ch_Connected := Some false;
               ch_ServicesResolved := Some true; ch_UUIDs := None |} in
  let s' := step (bus_with true) (EvPropertiesChanged 0 ch) bound_state in
  trace s' = trace bound_state /\
  trace (_connectDevice 0 bound_state)
    = E_ConnectProfile D1 SERVICE_UUID :: trace bound_state.
Proof. vm_compute. split; reflexivity. Qed.

(** C1 (code bug): after a first inbound connection on D1, a further
    [_connectDevice] issues nothing; but a second [NewConnection] for D1
    overwrites [bludev._muxer] without closing the first channel, and D1
    is left with two open channels, both attached. *)
Theorem NewConnection_second_channel_left_open :
  let s1 := fst (NewConnection D1 7 (Some ident0) (Some "dev") bound_state) in
  let s2 := fst (NewConnection D1 8 (Some ident0) (Some "dev") s1) in
  _connectDevice 0 s1 = s1 /\
  open_channels 0 s1 = 1 /\
  open_channels 0 s2 = 2 /\
  muxers s2 = [{| mx_owner := 0; mx_open := true |};
               {| mx_owner := 0; mx_open := true |}] /\
  firstn 4 (trace s2)
    = [E_Attach 1 "dev"; E_EnsureDevice {| deviceId := "remote";
                                            bluetoothHost := Some (Address D1_info);
                                            bluetoothPath := Some D1 |};
       E_Attach 0 "dev"; E_EnsureDevice {| deviceId := "remote";
                                            bluetoothHost := Some (Address D1_info);
                                            bluetoothPath := Some D1 |}].
Proof. vm_compute. repeat split; reflexivity. Qed.

(** The unbind branch closes no channel: the multiplexer heap is untouched. *)
Lemma unbind_loop_muxers :
  forall entries s, muxers (unbind_loop entries s) = muxers s.
Proof.
  induction entries as [|[k p] rest IH]; intros s; simpl; [reflexivity |].
  rewrite IH. reflexivity.
Qed.

Lemma unbind_loop_devices :
  forall entries s, _devices s = entries -> _devices (unbind_loop entries s) = [].
Proof.
  induction entries as [|[k p] rest IH]; intros s Hs; simpl; [exact Hs |].
  apply IH. simpl. rewrite Hs. simpl. rewrite String.eqb_refl. reflexivity.
Qed.

Lemma onNameOwnerChanged_unbind :
  forall b s, g_name_owner s = None ->
    muxers (_onNameOwnerChanged b s) = muxers s /\
    _devices (_onNameOwnerChanged b s) = [].
Proof.
  intros b s H. unfold _onNameOwnerChanged. rewrite H.
  destruct (managed_objects b); simpl;
    rewrite unbind_loop_muxers, (unbind_loop_devices (_devices s) s eq_refl);
    split; reflexivity.
Qed.

(** C2 (code bug): D1 holds an open channel when the daemon loses its name.
    The unbind branch drops D1 from [_devices] without closing that channel;
    after the daemon comes back, D1 is tracked by a fresh proxy while the
    old channel is still open, and no close was ever issued for it. *)
Theorem unbind_leaves_channel_open :
  let s := run (bus_with true)
             [EvNewConnection D1 7 (Some ident0) (Some "dev");
              EvNameOwner None; EvNameOwner (Some ":1.6")] bound_state in
  muxers s = [{| mx_owner := 0; mx_open := true |}] /\
  ~ In (E_MuxerClose 0) (trace s) /\
  _devices s = [(D1, 1)] /\
  option_map _muxer (nth_error (proxies s) 0) = Some (Some 0).
Proof.
  vm_compute. split; [reflexivity |]. split.
  - intros H. repeat (destruct H as [H|H]; [discriminate H |]). exact H.
  - split; reflexivity.
Qed.

(** C9 (code bug): [destroy] called twice on a bound service with an open
    channel.  The first call disconnects the name-owner handler, closes the
    channel, destroys the exported profile and the manager proxy; the second
    disconnects the same handler id again and destroys the exported profile
    again, since [_nameOwnerChangedId] and [_profile] are never cleared. *)
Theorem destroy_twice_releases_again :
  let s := fst (NewConnection D1 7 (Some ident0) (Some "dev") bound_state) in
  (trace (destroy (destroy s))
    = [E_ProfileDestroy; E_Disconnect (Some 1);
       E_ProfileManagerDestroy; E_ProfileDestroy; E_MuxerClose 0;
       E_Disconnect (Some 1)] ++ trace s)%list.
Proof. vm_compute. reflexivity. Qed.

Lemma proxy_close_suffix :
  forall p s, exists l, trace (proxy_close p s) = (l ++ trace s)%list /\
                        ensure_calls l = 0 /\ attach_calls l = 0.
Proof.
  intros p s. unfold proxy_close. destruct_matches.
  - exists [E_MuxerClose n]. simpl. auto.
  - exists []. simpl. auto.
  - exists []. simpl. auto.
Qed.

Lemma ensure_calls_app : forall l t, ensure_calls (l ++ t) = ensure_calls l + ensure_calls t.
Proof. intros l t. unfold ensure_calls. rewrite filter_app, length_app. reflexivity. Qed.

Lemma attach_calls_app : forall l t, attach_calls (l ++ t) = attach_calls l + attach_calls t.
Proof. intros l t. unfold attach_calls. rewrite filter_app, length_app. reflexivity. Qed.

(** C7 (amended): a successful negotiation on a tracked device calls
    [ensureDevice] exactly once, with the negotiated identity carrying the
    device's Address as [bluetoothHost] and its object path as
    [bluetoothPath]; [attach] of the new channel is called exactly once when
    [ensureDevice] yields a device, and not at all when it fails.  Stated on
    the effects [l] this call appends to the trace: the only [ensureDevice]
    among them is the one with that identity, and the only [attach] (if
    any) is the one of the new channel. *)
Theorem NewConnection_negotiated :
  forall object_path fd id0 ensured s p px,
    map_get object_path (_devices s) = Some p ->
    nth_error (proxies s) p = Some px ->
    let s' := fst (NewConnection object_path fd (Some id0) ensured s) in
    let ident := {| deviceId := deviceId id0;
                    bluetoothHost := Some (Address (info px));
                    bluetoothPath := Some (g_object_path px) |} in
    exists l, trace s' = (l ++ trace s)%list /\
      filter is_ensure l = [E_EnsureDevice ident] /\
      filter is_attach l
        = match ensured with
          | Some device => [E_Attach (length (muxers s)) device]
          | None => []
          end.
Proof.
  intros object_path fd id0 ensured s p px Hget Hp s' ident.
  subst s' ident. unfold NewConnection. rewrite Hget, Hp.
  destruct ensured as [device|]; cbn [fst].
  - exists [E_Attach (length (muxers s)) device;
            E_EnsureDevice {| deviceId := deviceId id0; bluetoothHost := Some (Address (info px));
                              bluetoothPath := Some (g_object_path px) |}].
    split; [reflexivity | split; reflexivity].
  - match goal with |- context [proxy_close p ?x] =>
      destruct (proxy_close_suffix p x) as (l0 & Hl & He & Ha) end.
    unfold ensure_calls, attach_calls in He, Ha.
    apply length_zero_iff_nil in He, Ha.
    exists (E_Warning (Alias (info px)) :: (l0 ++ [E_EnsureDevice
              {| deviceId := deviceId id0; bluetoothHost := Some (Address (info px));
                 bluetoothPath := Some (g_object_path px) |}])%list).
    split.
    + cbn [trace emit]. rewrite Hl. cbn [trace emit set_proxies set_muxers].
      simpl. rewrite <- app_assoc. reflexivity.
    + cbn [filter is_ensure is_attach]. rewrite !filter_app, He, Ha. split; reflexivity.
Qed.

Lemma NewConnection_negotiated_witness :
  map_get D1 (_devices connected_state) = Some 0 /\
  nth_error (proxies connected_state) 0
    = Some {| g_object_path := D1; info := D1_info; _muxer := Some 0;
              deviceChangedConnected := true |} /\
  exists l,
    trace (fst (NewConnection D1 8 (Some ident0) (Some "dev") connected_state))
      = (l ++ trace connected_state)%list /\
    filter is_ensure l
      = [E_EnsureDevice {| deviceId := "remote";
                           bluetoothHost := Some "00:11:22:33:44:55";
                           bluetoothPath := Some D1 |}] /\
    filter is_attach l = [E_Attach 1 "dev"].
Proof.
  split; [vm_compute; reflexivity |]. split; [vm_compute; reflexivity |].
  exact (NewConnection_negotiated D1 8 ident0 (Some "dev") connected_state 0
           {| g_object_path := D1; info := D1_info; _muxer := Some 0;
              deviceChangedConnected := true |} eq_refl eq_refl).
Defined.

(** C7 counterexample: the handshake on D1 succeeds but [ensureDevice]
    rejects; [ensureDevice] was called once and [attach] never. *)
Lemma NewConnection_ensure_fails_no_attach :
  let s' := fst (NewConnection D1 7 (Some ident0) None bound_state) in
  ensure_calls (trace s') = 1 /\ attach_calls (trace s') = 0.
Proof. vm_compute. split; reflexivity. Qed.

(** *** No operation but the bind branch registers the profile *)

Section NoRegistration.
Variable s0 : state.
Local Notation R := (no_new_registration s0).

Lemma nnr_refl : no_new_registration s0 s0.
Proof. split; reflexivity. Qed.

Lemma nnr_emit : forall e s, registrations [e] = [] -> R s -> R (emit e s).
Proof.
  intros e s He [H1 H2]. split; [exact H1 |]. simpl.
  destruct e; try exact H2; discriminate He.
Qed.

Lemma nnr_set_devices : forall d s, R s -> R (set_devices d s).
Proof. intros d s H. exact H. Qed.
Lemma nnr_set_proxies : forall d s, R s -> R (set_proxies d s).
Proof. intros d s H. exact H. Qed.
Lemma nnr_set_muxers : forall d s, R s -> R (set_muxers d s).
Proof. intros d s H. exact H. Qed.
Lemma nnr_set_registered : forall d s, R s -> R (set_registered d s).
Proof. intros d s H. exact H. Qed.
Lemma nnr_set_owner : forall d s, R s -> R (set_owner d s).
Proof. intros d s H. exact H. Qed.
Lemma nnr_set_teardown : forall w pm s, R s -> R (set_teardown w pm s).
Proof. intros w pm s H. exact H. Qed.

Ltac nnr :=
  repeat first
    [ assumption
    | apply nnr_emit; [reflexivity |]
    | apply nnr_set_devices | apply nnr_set_proxies | apply nnr_set_muxers
    | apply nnr_set_registered | apply nnr_set_owner | apply nnr_set_teardown ].

Lemma nnr_proxy_close : forall p s, R s -> R (proxy_close p s).
Proof. intros p s H. unfold proxy_close. destruct_matches; nnr. Qed.

Lemma nnr_RequestDisconnection : forall q s, R s -> R (RequestDisconnection q s).
Proof.
  intros q s H. unfold RequestDisconnection. destruct_matches; auto using nnr_proxy_close.
Qed.

Lemma nnr_connectDevice : forall p s, R s -> R (_connectDevice p s).
Proof. intros p s H. unfold _connectDevice. destruct_matches; nnr. Qed.

Lemma nnr_broadcast : forall q s, R s -> R (broadcast q s).
Proof.
  intros q s H. unfold broadcast. destruct_matches; auto using nnr_connectDevice.
Qed.

Lemma nnr_onDeviceChanged : forall p ch s, R s -> R (_onDeviceChanged p ch s).
Proof.
  intros p ch s H. unfold _onDeviceChanged.
  destruct_matches; auto using nnr_connectDevice, nnr_RequestDisconnection.
Qed.

Lemma nnr_onInterfacesAdded : forall b q ifs s, R s -> R (_onInterfacesAdded b q ifs s).
Proof.
  intros b q ifs. induction ifs as [|i rest IH]; intros s H; simpl; [exact H |].
  apply IH. unfold added_iface. cbv beta zeta. destruct_matches; nnr.
Qed.

Lemma nnr_removed_loop : forall q ifs s, R s -> R (removed_loop q ifs s).
Proof.
  intros q ifs. induction ifs as [|i rest IH]; intros s H; simpl; [exact H |].
  apply IH. unfold removed_iface. cbv beta zeta. destruct_matches; nnr.
  apply nnr_RequestDisconnection. nnr.
Qed.

Lemma nnr_onInterfacesRemoved : forall q ifs s, R s -> R (_onInterfacesRemoved q ifs s).
Proof.
  intros q ifs s H. unfold _onInterfacesRemoved. destruct ifs; auto using nnr_removed_loop.
Qed.

Lemma nnr_unbind_loop : forall entries s, R s -> R (unbind_loop entries s).
Proof.
  induction entries as [|[k p] rest IH]; intros s H; simpl; [exact H |].
  apply IH. nnr.
Qed.

Lemma nnr_add_objects : forall b objs s, R s -> R (add_objects b objs s).
Proof.
  intros b. induction objs as [|[k o] rest IH]; intros s H; simpl; [exact H |].
  apply IH. apply nnr_onInterfacesAdded. exact H.
Qed.

Lemma nnr_NewConnection :
  forall q fd neg ens s, R s -> R (fst (NewConnection q fd neg ens s)).
Proof.
  intros q fd neg ens s H. unfold NewConnection. cbv beta zeta.
  destruct_matches; cbn [fst]; repeat (nnr; try apply nnr_proxy_close).
Qed.

Lemma nnr_close_all : forall entries s, R s -> R (close_all entries s).
Proof.
  induction entries as [|[k p] rest IH]; intros s H; simpl; [exact H |].
  apply IH. apply nnr_proxy_close. exact H.
Qed.

Lemma nnr_destroy : forall s, R s -> R (destroy s).
Proof.
  intros s H. unfold destroy. cbv beta zeta.
  destruct_matches; repeat (nnr; try apply nnr_close_all).
Qed.

Lemma nnr_vfunc_g_signal :
  forall b n q ifs s, R s -> R (vfunc_g_signal b n q ifs s).
Proof.
  intros b n q ifs s H. unfold vfunc_g_signal.
  destruct_matches; auto using nnr_onInterfacesAdded, nnr_onInterfacesRemoved.
Qed.

Lemma nnr_unbound : forall b s, g_name_owner s = None -> R s -> R (_onNameOwnerChanged b s).
Proof.
  intros b s Ho H. unfold _onNameOwnerChanged. rewrite Ho.
  destruct_matches; nnr; apply nnr_unbind_loop; exact H.
Qed.

End NoRegistration.

(** Every event but a new name owner leaves the registrations unchanged. *)
Lemma step_no_registration :
  forall b e s, (forall o, e <> EvNameOwner (Some o)) ->
    no_new_registration s (step b e s).
Proof.
  intros b e s He. pose proof (nnr_refl s) as H.
  destruct e; simpl.
  - apply nnr_vfunc_g_signal. exact H.
  - destruct_matches; try exact H;
      try apply nnr_onDeviceChanged; apply nnr_set_proxies; exact H.
  - destruct owner as [o|]; [exfalso; exact (He o eq_refl) |].
    destruct_matches; [apply nnr_unbound; [reflexivity |] |]; exact H.
  - apply nnr_NewConnection. exact H.
  - apply nnr_RequestDisconnection. exact H.
  - apply nnr_broadcast. exact H.
  - apply nnr_destroy. exact H.
Qed.

(** *** Registration requests carry the exported profile *)

Definition registration_inv (s : state) : Prop :=
  _profile s = Some PROFILE_PATH /\
  Forall (fun r => r = (PROFILE_PATH, SERVICE_UUID, SERVICE_PROFILE))
    (registrations (trace s)).

Lemma registration_inv_nnr :
  forall s s', registration_inv s -> no_new_registration s s' -> registration_inv s'.
Proof.
  intros s s' [H1 H2] [H3 H4]. split; congruence.
Qed.

Lemma registration_inv_bind :
  forall b s, registration_inv s -> registration_inv (_onNameOwnerChanged b s).
Proof.
  intros b s Hinv. destruct (g_name_owner s) eqn:Ho.
  - pose proof Hinv as [Hprof Hall]. unfold _onNameOwnerChanged. rewrite Ho, Hprof.
    set (s1 := emit (E_RegisterProfile PROFILE_PATH SERVICE_UUID SERVICE_PROFILE) s).
    assert (H1 : registration_inv s1).
    { split; [exact Hprof |]. simpl. constructor; [reflexivity | exact Hall]. }
    destruct (negb (_profileManager s)).
    + apply (registration_inv_nnr s); [exact Hinv |].
      apply nnr_emit; [reflexivity | apply nnr_refl].
    + destruct (negb (register_ok b)).
      * apply (registration_inv_nnr s1); [exact H1 |].
        apply nnr_emit; [reflexivity | apply nnr_refl].
      * apply (registration_inv_nnr s1); [exact H1 |].
        destruct (managed_objects b) as [objs|].
        -- apply nnr_add_objects, nnr_emit; [reflexivity |].
           apply nnr_set_registered, nnr_refl.
        -- apply nnr_emit; [reflexivity |].
           apply nnr_emit; [reflexivity |].
           apply nnr_set_registered, nnr_refl.
  - apply (registration_inv_nnr s); [exact Hinv |].
    apply nnr_unbound; [exact Ho | apply nnr_refl].
Qed.

Lemma registration_inv_step :
  forall b e s, registration_inv s -> registration_inv (step b e s).
Proof.
  intros b e s H. destruct e as [| | owner | | | |];
    try (apply (registration_inv_nnr s); [exact H |];
         apply step_no_registration; intros o Ho; discriminate Ho).
  simpl. destruct H as [H1 H2].
  assert (Hs1 : registration_inv (match owner with
                                  | None => set_registered false (set_owner owner s)
                                  | Some _ => set_owner owner s end)).
  { destruct owner; split; assumption. }
  destruct_matches; try apply registration_inv_bind; exact Hs1.
Qed.

(** C8: from start-up on, whatever the bus answers and the events, every
    RegisterProfile request carries the exported profile's object path, the
    service UUID 185f3df4-3268-4e3f-9fca-d4d5059915bd and the options
    RequireAuthorization false, RequireAuthentication true, ServiceRecord
    the bundled SDP record. *)
Theorem register_request_contents :
  forall b owner events,
    let s := run b events (_init_async b owner) in
    _profile s = Some PROFILE_PATH /\
    Forall (fun r => r = (PROFILE_PATH, SERVICE_UUID,
                          [("RequireAuthorization", VBool false);
                           ("RequireAuthentication", VBool true);
                           ("ServiceRecord", VString SERVICE_RECORD)]))
      (registrations (trace s)).
Proof.
  intros b owner events s. subst s.
  assert (H : registration_inv (_init_async b owner)).
  { apply registration_inv_bind. split; [reflexivity | constructor]. }
  revert H. generalize (_init_async b owner).
  induction events as [|e rest IH]; intros s0 H; simpl; [exact H |].
  apply IH. apply registration_inv_step. exact H.
Qed.

(** C4 (amended): on a transition into Bound the registration request is
    issued first.  If it fails, the failure is logged and nothing else
    happens in that bind: no enumeration, no device added, the registration
    state unchanged.  If it succeeds, the managed objects are then fetched
    and each is fed to [_onInterfacesAdded] in turn.  No event other than a
    new name owner issues a registration request, so a failed registration
    is not retried before the next bind. *)
Theorem bind_registers_then_enumerates :
  forall b s o path,
    g_name_owner s = Some o -> _profile s = Some path -> _profileManager s = true ->
    (register_ok b = false ->
       _onNameOwnerChanged b s
       = emit (E_LogError "RegisterProfile")
           (emit (E_RegisterProfile path SERVICE_UUID SERVICE_PROFILE) s)) /\
    (register_ok b = true -> forall objects, managed_objects b = Some objects ->
       _onNameOwnerChanged b s
       = add_objects b objects
           (emit E_GetManagedObjects
              (set_registered true
                 (emit (E_RegisterProfile path SERVICE_UUID SERVICE_PROFILE) s)))) /\
    (forall e s', (forall o', e <> EvNameOwner (Some o')) ->
       registrations (trace (step b e s')) = registrations (trace s')).
Proof.
  intros b s o path Ho Hp Hm. repeat split.
  - intros Hr. unfold _onNameOwnerChanged. rewrite Ho, Hp, Hm, Hr. reflexivity.
  - intros Hr objects Hobj. unfold _onNameOwnerChanged.
    rewrite Ho, Hp, Hm, Hr, Hobj. reflexivity.
  - intros e s' He. apply (step_no_registration b e s' He).
Qed.

Lemma bind_registers_then_enumerates_witness :
  _onNameOwnerChanged (bus_with false) (initial (Some ":1.5"))
  = emit (E_LogError "RegisterProfile")
      (emit (E_RegisterProfile PROFILE_PATH SERVICE_UUID SERVICE_PROFILE)
         (initial (Some ":1.5"))).
Proof.
  apply (bind_registers_then_enumerates (bus_with false) (initial (Some ":1.5"))
           ":1.5" PROFILE_PATH); reflexivity.
Defined.

(** C4 counterexample: the bind issues RegisterProfile before
    GetManagedObjects; and when the registration fails, D1, managed by the
    daemon and materialisable, is never fed to the mirror. *)
Lemma bind_registration_precedes_enumeration :
  rev (trace bound_state)
    = [E_RegisterProfile PROFILE_PATH SERVICE_UUID SERVICE_PROFILE;
       E_GetManagedObjects; E_NotifyDevices] /\
  managed_objects (bus_with false) = Some [(D1, [DEVICE_IFACE])] /\
  device_proxy (bus_with false) D1 = Some D1_info /\
  _devices (_init_async (bus_with false) (Some ":1.5")) = [] /\
  rev (trace (_init_async (bus_with false) (Some ":1.5")))
    = [E_RegisterProfile PROFILE_PATH SERVICE_UUID SERVICE_PROFILE;
       E_LogError "RegisterProfile"].
Proof. vm_compute. repeat split; reflexivity. Qed.

(** *** The mirror: Map lemmas *)

Lemma map_has_cons :
  forall k k' v t, map_has k ((k', v) :: t) = String.eqb k k' || map_has k t.
Proof.
  intros k k' v t. unfold map_has. simpl. destruct (String.eqb k k'); reflexivity.
Qed.

Lemma map_has_In : forall k m, map_has k m = true <-> In k (map fst m).
Proof.
  intros k m. induction m as [|[k' v] t IH]; simpl.
  - unfold map_has. simpl. split; [discriminate | contradiction].
  - rewrite map_has_cons, orb_true_iff, String.eqb_eq, IH.
    split; intros [H|H]; auto.
Qed.

Lemma map_get_has : forall k m, map_get k m = None -> map_has k m = false.
Proof. intros k m H. unfold map_has. rewrite H. reflexivity. Qed.

Lemma map_has_set :
  forall k q v m, map_has k (map_set q v m) = String.eqb k q || map_has k m.
Proof.
  intros k q v m. induction m as [|[k' v'] t IH]; simpl.
  - rewrite map_has_cons. reflexivity.
  - destruct (String.eqb q k') eqn:Hq.
    + apply String.eqb_eq in Hq. subst k'. rewrite !map_has_cons.
      destruct (String.eqb k q); reflexivity.
    + rewrite !map_has_cons, IH. destruct (String.eqb k q), (String.eqb k k'); reflexivity.
Qed.

Lemma map_set_keys :
  forall k q v m, In k (map fst (map_set q v m)) <-> k = q \/ In k (map fst m).
Proof.
  intros k q v m. rewrite <- !map_has_In, map_has_set, orb_true_iff, String.eqb_eq.
  reflexivity.
Qed.

Lemma map_set_nodup :
  forall q v m, NoDup (map fst m) -> NoDup (map fst (map_set q v m)).
Proof.
  intros q v m. induction m as [|[k' v'] t IH]; intros Hnd; simpl.
  - constructor; [intros [] | constructor].
  - inversion Hnd as [|x l Hni Hnd']; subst.
    destruct (String.eqb q k') eqn:Hq; simpl.
    + apply String.eqb_eq in Hq. subst. constructor; assumption.
    + constructor; [| apply IH; exact Hnd'].
      rewrite map_set_keys. intros [H|H]; [| contradiction].
      subst. rewrite String.eqb_refl in Hq. discriminate Hq.
Qed.

Lemma map_delete_keys :
  forall k q m, In k (map fst (map_delete q m)) -> In k (map fst m).
Proof.
  intros k q m. induction m as [|[k' v'] t IH]; simpl; [auto |].
  destruct (String.eqb q k'); simpl; intros H; [right; exact H |].
  destruct H as [H|H]; [left; exact H | right; apply IH; exact H].
Qed.

Lemma map_delete_nodup :
  forall q m, NoDup (map fst m) -> NoDup (map fst (map_delete q m)).
Proof.
  intros q m. induction m as [|[k' v'] t IH]; intros Hnd; simpl; [exact Hnd |].
  inversion Hnd as [|x l Hni Hnd']; subst.
  destruct (String.eqb q k'); [exact Hnd' |]. simpl. constructor.
  - intros H. apply Hni. exact (map_delete_keys k' q t H).
  - apply IH. exact Hnd'.
Qed.

Lemma map_has_delete :
  forall k q m, NoDup (map fst m) ->
    map_has k (map_delete q m) = negb (String.eqb k q) && map_has k m.
Proof.
  intros k q m. induction m as [|[k' v'] t IH]; intros Hnd; simpl.
  - unfold map_has. simpl. rewrite andb_false_r. reflexivity.
  - inversion Hnd as [|x l Hni Hnd']; subst.
    rewrite map_has_cons. destruct (String.eqb q k') eqn:Hq.
    + apply String.eqb_eq in Hq. subst k'.
      destruct (String.eqb k q) eqn:Hk; simpl; [| reflexivity].
      apply String.eqb_eq in Hk. subst k.
      destruct (map_has q t) eqn:Ht; [| reflexivity].
      apply map_has_In in Ht. contradiction.
    + rewrite map_has_cons, IH by exact Hnd'.
      destruct (String.eqb k k') eqn:Hk; simpl.
      * apply String.eqb_eq in Hk. subst k. rewrite String.eqb_sym, Hq. reflexivity.
      * reflexivity.
Qed.

(** *** The mirror: each handler on the tracked set *)

Definition proxy_ok (b : bus) (q : string) : bool :=
  match device_proxy b q with Some _ => true | None => false end.

Lemma RequestDisconnection_devices :
  forall q s, _devices (RequestDisconnection q s) = _devices s.
Proof.
  intros q s. unfold RequestDisconnection. destruct_matches;
    [apply proxy_close_devices | reflexivity].
Qed.

Lemma connectDevice_devices : forall p s, _devices (_connectDevice p s) = _devices s.
Proof. intros p s. unfold _connectDevice. destruct_matches; reflexivity. Qed.

Lemma onDeviceChanged_devices :
  forall p ch s, _devices (_onDeviceChanged p ch s) = _devices s.
Proof.
  intros p ch s. unfold _onDeviceChanged.
  destruct_matches; auto using connectDevice_devices, RequestDisconnection_devices.
Qed.

Lemma added_iface_devices :
  forall b q i s, NoDup (map fst (_devices s)) ->
    NoDup (map fst (_devices (added_iface b q i s))) /\
    forall k, map_has k (_devices (added_iface b q i s))
      = map_has k (_devices s)
        || (String.eqb k q && String.eqb i DEVICE_IFACE && proxy_ok b q).
Proof.
  intros b q i s Hnd. unfold added_iface, proxy_ok.
  destruct (String.eqb i DEVICE_IFACE) eqn:Hi; cbn [negb].
  - destruct (map_has q (_devices s)) eqn:Hq.
    + split; [exact Hnd |]. intros k.
      destruct (String.eqb k q) eqn:Hk; cbn [andb].
      * apply String.eqb_eq in Hk. subst k. rewrite Hq. reflexivity.
      * rewrite orb_false_r. reflexivity.
    + destruct (device_proxy b q); cbn [_devices emit set_devices set_proxies].
      * split; [apply map_set_nodup; exact Hnd |]. intros k.
        rewrite map_has_set, !andb_true_r, orb_comm. reflexivity.
      * split; [exact Hnd |]. intros k. rewrite !andb_false_r, orb_false_r. reflexivity.
  - split; [exact Hnd |]. intros k. rewrite andb_false_r. cbn [andb].
    rewrite orb_false_r. reflexivity.
Qed.

Lemma onInterfacesAdded_devices :
  forall b q ifs s, NoDup (map fst (_devices s)) ->
    NoDup (map fst (_devices (_onInterfacesAdded b q ifs s))) /\
    forall k, map_has k (_devices (_onInterfacesAdded b q ifs s))
      = map_has k (_devices s)
        || (String.eqb k q && existsb (fun i => String.eqb i DEVICE_IFACE) ifs
            && proxy_ok b q).
Proof.
  intros b q ifs. induction ifs as [|i rest IH]; intros s Hnd; cbn [_onInterfacesAdded existsb].
  - split; [exact Hnd |]. intros k. rewrite andb_false_r. cbn [andb].
    rewrite orb_false_r. reflexivity.
  - destruct (added_iface_devices b q i s Hnd) as [Hnd1 Hk1].
    destruct (IH _ Hnd1) as [Hnd2 Hk2]. split; [exact Hnd2 |].
    intros k. rewrite Hk2, Hk1.
    destruct (map_has k (_devices s)), (String.eqb k q), (String.eqb i DEVICE_IFACE),
      (existsb (fun i0 => String.eqb i0 DEVICE_IFACE) rest), (proxy_ok b q); reflexivity.
Qed.

Lemma removed_iface_devices :
  forall q i s, NoDup (map fst (_devices s)) ->
    NoDup (map fst (_devices (removed_iface q i s))) /\
    forall k, map_has k (_devices (removed_iface q i s))
      = map_has k (_devices s) && negb (String.eqb k q && String.eqb i DEVICE_IFACE).
Proof.
  intros q i s Hnd. unfold removed_iface.
  destruct (String.eqb i DEVICE_IFACE) eqn:Hi; cbn [negb].
  - destruct (map_get q (_devices s)) as [p|] eqn:Hq.
    + cbn [_devices emit set_devices].
      rewrite RequestDisconnection_devices. cbn [_devices emit set_proxies].
      split; [apply map_delete_nodup; exact Hnd |]. intros k.
      rewrite map_has_delete by exact Hnd. rewrite andb_true_r, andb_comm. reflexivity.
    + split; [exact Hnd |]. intros k. rewrite andb_true_r.
      destruct (String.eqb k q) eqn:Hk; cbn [negb].
      * apply String.eqb_eq in Hk. subst k. rewrite (map_get_has q _ Hq). reflexivity.
      * rewrite andb_true_r. reflexivity.
  - split; [exact Hnd |]. intros k. rewrite andb_false_r. cbn [negb].
    rewrite andb_true_r. reflexivity.
Qed.

Lemma onInterfacesRemoved_devices :
  forall q ifs s, NoDup (map fst (_devices s)) ->
    NoDup (map fst (_devices (_onInterfacesRemoved q ifs s))) /\
    forall k, map_has k (_devices (_onInterfacesRemoved q ifs s))
      = map_has k (_devices s)
        && negb (String.eqb k q && existsb (fun i => String.eqb i DEVICE_IFACE) ifs).
Proof.
  intros q ifs s Hnd. unfold _onInterfacesRemoved.
  destruct ifs as [|i0 rest0].
  - split; [exact Hnd |]. intros k. cbn [existsb]. rewrite andb_false_r.
    cbn [negb]. rewrite andb_true_r. reflexivity.
  - generalize (i0 :: rest0). clear i0 rest0. intros ifs. revert s Hnd.
    induction ifs as [|i rest IH]; intros s Hnd; cbn [removed_loop existsb].
    + split; [exact Hnd |]. intros k. rewrite andb_false_r.
      cbn [negb]. rewrite andb_true_r. reflexivity.
    + destruct (removed_iface_devices q i s Hnd) as [Hnd1 Hk1].
      destruct (IH _ Hnd1) as [Hnd2 Hk2]. split; [exact Hnd2 |].
      intros k. rewrite Hk2, Hk1.
      destruct (map_has k (_devices s)), (String.eqb k q), (String.eqb i DEVICE_IFACE),
        (existsb (fun i0 => String.eqb i0 DEVICE_IFACE) rest); reflexivity.
Qed.

Lemma mirror_step_devices :
  forall b e s, mirror_event e = true -> NoDup (map fst (_devices s)) ->
    NoDup (map fst (_devices (step b e s))) /\
    forall k, map_has k (_devices (step b e s))
      = spec_mirror_step b e (fun q => map_has q (_devices s)) k.
Proof.
  intros b e s He Hnd. destruct e as [n q ifs | p ch | | | | |]; try discriminate He.
  - cbn [step spec_mirror_step]. unfold vfunc_g_signal. rewrite guard_false.
    destruct (String.eqb n "InterfacesAdded").
    + exact (onInterfacesAdded_devices b q ifs s Hnd).
    + destruct (String.eqb n "InterfacesRemoved").
      * exact (onInterfacesRemoved_devices q ifs s Hnd).
      * split; [exact Hnd | reflexivity].
  - cbn [step spec_mirror_step].
    destruct (nth_error (proxies s) p) as [px|]; [| split; [exact Hnd | reflexivity]].
    destruct (deviceChangedConnected px);
      [rewrite onDeviceChanged_devices |]; cbn [_devices set_proxies];
      split; [exact Hnd | reflexivity | exact Hnd | reflexivity].
Qed.

Lemma spec_mirror_tracked_ext :
  forall b events f g, (forall q, f q = g q) ->
    forall path, spec_mirror_tracked b events f path = spec_mirror_tracked b events g path.
Proof.
  intros b events. induction events as [|e rest IH]; intros f g Hfg path; simpl.
  - apply Hfg.
  - apply IH. intros q. destruct e; simpl; rewrite ?Hfg; reflexivity.
Qed.

Lemma mirror_run_devices :
  forall b events s, forallb mirror_event events = true ->
    NoDup (map fst (_devices s)) ->
    NoDup (map fst (_devices (run b events s))) /\
    forall path, map_has path (_devices (run b events s))
      = spec_mirror_tracked b events (fun q => map_has q (_devices s)) path.
Proof.
  intros b events. induction events as [|e rest IH]; intros s Hev Hnd; simpl.
  - split; [exact Hnd | reflexivity].
  - simpl in Hev. apply andb_true_iff in Hev as [He Hrest].
    destruct (mirror_step_devices b e s He Hnd) as [Hnd1 Hk1].
    destruct (IH _ Hrest Hnd1) as [Hnd2 Hk2]. split; [exact Hnd2 |].
    intros path. rewrite Hk2. apply spec_mirror_tracked_ext. exact Hk1.
Qed.

Lemma devices_In :
  forall s px, In px (devices s) <->
    exists path p, In (path, p) (_devices s) /\ nth_error (proxies s) p = Some px /\
                   In SERVICE_UUID (UUIDs (info px)).
Proof.
  intros s px. unfold devices. rewrite filter_In, in_flat_map.
  rewrite existsb_exists. split.
  - intros [[[path p] [Hin Hpx]] [u [Hu Heq]]].
    apply String.eqb_eq in Heq. subst u.
    destruct (nth_error (proxies s) p) as [px'|] eqn:Hp; [| contradiction].
    destruct Hpx as [<-|[]]. exists path, p. auto.
  - intros (path & p & Hin & Hp & Hu). split.
    + exists (path, p). split; [exact Hin |]. rewrite Hp. left. reflexivity.
    + exists SERVICE_UUID. split; [exact Hu | apply String.eqb_refl].
Qed.

(** C6: adding an already-tracked path changes nothing; a removal for an
    untracked path changes nothing; a removal with an empty interface list
    changes nothing.  Over any sequence of add, remove and property-change
    events, the keys of [_devices] stay duplicate-free and are exactly the
    paths the spec-level mirror tracks, and [devices] lists exactly the
    tracked proxies advertising the service UUID. *)
Theorem mirror_events_exact :
  (forall b object_path interfaces s,
     map_has object_path (_devices s) = true ->
     _onInterfacesAdded b object_path interfaces s = s) /\
  (forall object_path interfaces s,
     map_get object_path (_devices s) = None ->
     _onInterfacesRemoved object_path interfaces s = s) /\
  (forall object_path s, _onInterfacesRemoved object_path [] s = s) /\
  (forall b events s,
     forallb mirror_event events = true -> NoDup (map fst (_devices s)) ->
     let s' := run b events s in
     NoDup (map fst (_devices s')) /\
     (forall path, map_has path (_devices s')
                   = spec_mirror_tracked b events (fun q => map_has q (_devices s)) path) /\
     (forall px, In px (devices s') <->
        exists path p, In (path, p) (_devices s') /\ nth_error (proxies s') p = Some px /\
                       In SERVICE_UUID (UUIDs (info px)))).
Proof.
  split; [| split; [| split]].
  - intros b object_path interfaces s Hhas. revert s Hhas.
    induction interfaces as [|i rest IH]; intros s Hhas; simpl; [reflexivity |].
    assert (Hi : added_iface b object_path i s = s).
    { unfold added_iface. rewrite Hhas.
      destruct (negb (String.eqb i DEVICE_IFACE)); reflexivity. }
    rewrite Hi.
    apply IH. exact Hhas.
  - intros object_path interfaces s Hget. unfold _onInterfacesRemoved.
    destruct interfaces as [|i0 rest0]; [reflexivity |].
    generalize (i0 :: rest0). intros ifs. induction ifs as [|i rest IH]; simpl; [reflexivity |].
    unfold removed_iface. rewrite Hget.
    destruct (negb (String.eqb i DEVICE_IFACE)); exact IH.
  - intros object_path s. reflexivity.
  - intros b events s Hev Hnd s'.
    destruct (mirror_run_devices b events s Hev Hnd) as [Hnd' Hk].
    split; [exact Hnd' |]. split; [exact Hk |]. intros px. apply devices_In.
Qed.

Lemma mirror_events_exact_witness :
  map_has D1 (_devices bound_state) = true /\
  _onInterfacesAdded (bus_with true) D1 [DEVICE_IFACE] bound_state = bound_state /\
  map_get "/org/bluez/hci0/dev_AA_BB_CC_DD_EE_FF" (_devices bound_state) = None /\
  _onInterfacesRemoved "/org/bluez/hci0/dev_AA_BB_CC_DD_EE_FF" [DEVICE_IFACE] bound_state
    = bound_state /\
  map_has D1 (_devices (run (bus_with true)
                          [EvSignal "InterfacesRemoved" D1 [DEVICE_IFACE];
                           EvSignal "InterfacesAdded" D1 [DEVICE_IFACE]] bound_state))
    = spec_mirror_tracked (bus_with true)
        [EvSignal "InterfacesRemoved" D1 [DEVICE_IFACE];
         EvSignal "InterfacesAdded" D1 [DEVICE_IFACE]]
        (fun q => map_has q (_devices bound_state)) D1.
Proof.
  split; [vm_compute; reflexivity |].
  split; [apply (proj1 mirror_events_exact); vm_compute; reflexivity |].
  split; [vm_compute; reflexivity |].
  split; [apply (proj1 (proj2 mirror_events_exact)); vm_compute; reflexivity |].
  apply (proj2 (proj2 (proj2 (proj2 mirror_events_exact)) (bus_with true)
    [EvSignal "InterfacesRemoved" D1 [DEVICE_IFACE];
     EvSignal "InterfacesAdded" D1 [DEVICE_IFACE]] bound_state
    eq_refl ltac:(vm_compute; constructor; [intros [] | constructor]))).
Defined.

(** ** Further properties of the service *)

Open Scope list_scope.

(** *** Heap lemmas *)

Lemma nth_error_list_update :
  forall {A} n (f : A -> A) l m,
    nth_error (list_update n f l) m
    = if Nat.eqb n m then option_map f (nth_error l m) else nth_error l m.
Proof.
  intros A n f l. revert n. induction l as [|x t IH]; intros n m.
  - destruct n, m; simpl; try reflexivity. destruct (Nat.eqb n m); reflexivity.
  - destruct n as [|n], m as [|m]; simpl; try reflexivity. apply IH.
Qed.

Lemma length_list_update :
  forall {A} n (f : A -> A) l, length (list_update n f l) = length l.
Proof.
  intros A n f l. revert n. induction l as [|x t IH]; intros n; [destruct n; reflexivity |].
  destruct n; simpl; [reflexivity | rewrite IH; reflexivity].
Qed.

Lemma proxy_close_idem : forall p s, proxy_close p (proxy_close p s) = proxy_close p s.
Proof.
  intros p s. unfold proxy_close at 2.
  destruct (nth_error (proxies s) p) as [px|] eqn:Hp; [| reflexivity].
  destruct (_muxer px) as [m|] eqn:Hm; [| reflexivity].
  unfold proxy_close. cbn [proxies set_proxies].
  rewrite nth_error_list_update, Nat.eqb_refl. cbn [set_muxers emit proxies].
  rewrite Hp. cbn [option_map _muxer set_proxy_muxer]. rewrite Hm. reflexivity.
Qed.

(** X1: [proxy.close] is idempotent; it leaves the proxy with no channel
    reference and closes the channel it held. *)
Theorem proxy_close_releases :
  forall p px s, nth_error (proxies s) p = Some px ->
    proxy_close p (proxy_close p s) = proxy_close p s /\
    option_map _muxer (nth_error (proxies (proxy_close p s)) p) = Some None /\
    (forall m mx, _muxer px = Some m -> nth_error (muxers s) m = Some mx ->
       nth_error (muxers (proxy_close p s)) m = Some (close_muxer mx)).
Proof.
  intros p px s Hp. split; [apply proxy_close_idem |]. unfold proxy_close. rewrite Hp.
  destruct (_muxer px) as [m|] eqn:Hm.
  - cbn [proxies muxers set_proxies set_muxers emit].
    rewrite nth_error_list_update, Nat.eqb_refl, Hp. split; [reflexivity |].
    intros m' mx Hm' Hmx. injection Hm' as <-.
    rewrite nth_error_list_update, Nat.eqb_refl, Hmx. reflexivity.
  - split; [rewrite Hp; cbn; rewrite Hm; reflexivity | intros m mx Hm'; discriminate Hm'].
Qed.

Lemma proxy_close_releases_witness :
  nth_error (proxies connected_state) 0
    = Some {| g_object_path := D1; info := D1_info; _muxer := Some 0;
              deviceChangedConnected := true |} /\
  option_map _muxer (nth_error (proxies (proxy_close 0 connected_state)) 0) = Some None.
Proof.
  split; [vm_compute; reflexivity |].
  apply (proxy_close_releases 0 {| g_object_path := D1; info := D1_info; _muxer := Some 0;
                                   deviceChangedConnected := true |} connected_state).
  vm_compute. reflexivity.
Defined.

(** X2: [RequestDisconnection] of a path not in [_devices] changes nothing,
    and a repeated [RequestDisconnection] of the same path has no further
    effect. *)
Theorem RequestDisconnection_idempotent :
  forall q s,
    (map_get q (_devices s) = None -> RequestDisconnection q s = s) /\
    RequestDisconnection q (RequestDisconnection q s) = RequestDisconnection q s.
Proof.
  intros q s. split.
  - intros H. unfold RequestDisconnection. rewrite H. reflexivity.
  - unfold RequestDisconnection at 2. destruct (map_get q (_devices s)) as [p|] eqn:Hq.
    + unfold RequestDisconnection. rewrite proxy_close_devices, Hq. apply proxy_close_idem.
    + unfold RequestDisconnection. rewrite Hq. reflexivity.
Qed.

Lemma RequestDisconnection_idempotent_witness :
  map_get "/org/bluez/hci0/dev_AA_BB_CC_DD_EE_FF" (_devices connected_state) = None /\
  RequestDisconnection "/org/bluez/hci0/dev_AA_BB_CC_DD_EE_FF" connected_state
    = connected_state.
Proof.
  split; [vm_compute; reflexivity |].
  apply (proj1 (RequestDisconnection_idempotent "/org/bluez/hci0/dev_AA_BB_CC_DD_EE_FF"
                  connected_state)).
  vm_compute. reflexivity.
Defined.

(** X3: when the handshake or [ensureDevice] fails on a tracked device,
    [NewConnection] resolves, closes the channel it opened, leaves the
    device with no channel reference, logs a warning with the device alias
    last, and attaches nothing. *)
Theorem NewConnection_failure_releases :
  forall object_path fd negotiated ensured s p px,
    map_get object_path (_devices s) = Some p ->
    nth_error (proxies s) p = Some px ->
    negotiated = None \/ ensured = None ->
    let r := NewConnection object_path fd negotiated ensured s in
    snd r = Resolved /\
    option_map _muxer (nth_error (proxies (fst r)) p) = Some None /\
    nth_error (muxers (fst r)) (length (muxers s))
      = Some {| mx_owner := p; mx_open := false |} /\
    hd_error (trace (fst r)) = Some (E_Warning (Alias (info px))) /\
    attach_calls (trace (fst r)) = attach_calls (trace s).
Proof.
  intros object_path fd negotiated ensured s p px Hget Hp Hfail r. subst r.
  unfold NewConnection. rewrite Hget, Hp.
  assert (Hm : nth_error (muxers s ++ [{| mx_owner := p; mx_open := true |}]) (length (muxers s))
               = Some {| mx_owner := p; mx_open := true |}).
  { rewrite nth_error_app2, Nat.sub_diag by lia. reflexivity. }
  assert (Hclose : forall s2, proxies s2 = list_update p (set_proxy_muxer (Some (length (muxers s)))) (proxies s) ->
            muxers s2 = muxers s ++ [{| mx_owner := p; mx_open := true |}] ->
            option_map _muxer (nth_error (proxies (proxy_close p s2)) p) = Some None /\
            nth_error (muxers (proxy_close p s2)) (length (muxers s))
              = Some {| mx_owner := p; mx_open := false |} /\
            attach_calls (trace (proxy_close p s2)) = attach_calls (trace s2)).
  { intros s2 Hps Hms. unfold proxy_close. rewrite Hps, nth_error_list_update, Nat.eqb_refl, Hp.
    cbn [option_map _muxer set_proxy_muxer proxies set_proxies muxers set_muxers emit trace].
    rewrite Hms. repeat (rewrite nth_error_list_update, Nat.eqb_refl).
    rewrite ?Hp, ?Hm. repeat split. }
  destruct negotiated as [id0|]; [destruct ensured as [device|] |].
  - destruct Hfail as [H|H]; discriminate H.
  - edestruct (Hclose (emit (E_EnsureDevice {| deviceId := deviceId id0;
                              bluetoothHost := Some (Address (info px));
                              bluetoothPath := Some (g_object_path px) |})
              (set_proxies (list_update p (set_proxy_muxer (Some (length (muxers s)))) (proxies s))
                 (set_muxers (muxers s ++ [{| mx_owner := p; mx_open := true |}]) s))))
      as (H1 & H2 & H3); [reflexivity | reflexivity |].
    cbn [fst snd trace emit]. repeat split; [exact H1 | exact H2 |].
    unfold attach_calls in *. cbn [filter is_attach] in *. rewrite H3. reflexivity.
  - edestruct (Hclose (set_proxies (list_update p (set_proxy_muxer (Some (length (muxers s)))) (proxies s))
                 (set_muxers (muxers s ++ [{| mx_owner := p; mx_open := true |}]) s)))
      as (H1 & H2 & H3); [reflexivity | reflexivity |].
    cbn [fst snd trace emit]. repeat split; [exact H1 | exact H2 |].
    unfold attach_calls in *. cbn [filter is_attach] in *. rewrite H3. reflexivity.
Qed.

Lemma NewConnection_failure_releases_witness :
  map_get D1 (_devices bound_state) = Some 0 /\
  nth_error (proxies bound_state) 0
    = Some {| g_object_path := D1; info := D1_info; _muxer := None;
              deviceChangedConnected := true |} /\
  snd (NewConnection D1 7 None None bound_state) = Resolved.
Proof.
  split; [vm_compute; reflexivity |]. split; [vm_compute; reflexivity |].
  exact (proj1 (NewConnection_failure_releases D1 7 None None bound_state 0
                  {| g_object_path := D1; info := D1_info; _muxer := None;
                     deviceChangedConnected := true |}
                  eq_refl eq_refl (or_introl eq_refl))).
Defined.

Lemma unbind_loop_watch :
  forall entries s p,
    option_map deviceChangedConnected (nth_error (proxies (unbind_loop entries s)) p)
    = if existsb (Nat.eqb p) (map snd entries)
      then option_map (fun _ => false) (nth_error (proxies s) p)
      else option_map deviceChangedConnected (nth_error (proxies s) p).
Proof.
  induction entries as [|[k p0] rest IH]; intros s p; [reflexivity |].
  cbn [unbind_loop map snd existsb]. rewrite IH.
  cbn [proxies set_devices set_proxies emit]. rewrite nth_error_list_update.
  rewrite (Nat.eqb_sym p0 p).
  destruct (Nat.eqb p p0), (existsb (Nat.eqb p) (map snd rest)), (nth_error (proxies s) p);
    reflexivity.
Qed.

Lemma unbind_loop_trace :
  forall entries s, exists l, trace (unbind_loop entries s) = l ++ trace s /\
                              ~ In E_NotifyDevices l.
Proof.
  induction entries as [|[k p0] rest IH]; intros s.
  - exists []. split; [reflexivity | intros []].
  - cbn [unbind_loop]. match goal with |- context [unbind_loop rest ?x] =>
      destruct (IH x) as (l & Hl & Hn) end.
    exists (l ++ [E_ProxyDisconnect p0]). rewrite Hl. split.
    + cbn [trace set_devices set_proxies emit]. rewrite <- app_assoc. reflexivity.
    + rewrite in_app_iff. intros [H|[H|[]]]; [exact (Hn H) | discriminate H].
Qed.

(** X5: when the daemon's name owner is lost, every proxy tracked before
    has its property-change handler disconnected, [_devices] and the
    [devices] list end up empty, and no [notify::devices] is emitted. *)
Theorem unbind_forgets_devices :
  forall b s, g_name_owner s = None ->
    let s' := _onNameOwnerChanged b s in
    _devices s' = [] /\ devices s' = [] /\
    (forall k p px, In (k, p) (_devices s) -> nth_error (proxies s) p = Some px ->
       option_map deviceChangedConnected (nth_error (proxies s') p) = Some false) /\
    (exists l, trace s' = l ++ trace s /\ ~ In E_NotifyDevices l).
Proof.
  intros b s Ho s'. subst s'.
  destruct (onNameOwnerChanged_unbind b s Ho) as [_ Hd].
  split; [exact Hd |]. split; [unfold devices; rewrite Hd; reflexivity |].
  unfold _onNameOwnerChanged. rewrite Ho. split.
  - intros k p px Hin Hp.
    destruct (managed_objects b); cbn [proxies emit]; rewrite unbind_loop_watch;
      (replace (existsb (Nat.eqb p) (map snd (_devices s))) with true;
       [rewrite Hp; reflexivity |
        symmetry; apply existsb_exists; exists p; split;
        [apply (in_map snd) in Hin; exact Hin | apply Nat.eqb_refl]]).
  - destruct (unbind_loop_trace (_devices s) s) as (l & Hl & Hn).
    destruct (managed_objects b); cbn [trace emit]; rewrite Hl.
    + exists (E_GetManagedObjects :: l). split; [reflexivity |].
      intros [H|H]; [discriminate H | exact (Hn H)].
    + exists (E_LogError "GetManagedObjects" :: E_GetManagedObjects :: l).
      split; [reflexivity |]. intros [H|[H|H]]; [discriminate H | discriminate H | exact (Hn H)].
Qed.

Lemma unbind_forgets_devices_witness :
  g_name_owner (set_owner None connected_state) = None /\
  devices (_onNameOwnerChanged (bus_with true) (set_owner None connected_state)) = [].
Proof.
  split; [reflexivity |].
  exact (proj1 (proj2 (unbind_forgets_devices (bus_with true)
                         (set_owner None connected_state) eq_refl))).
Defined.

Lemma proxy_close_muxer_nth :
  forall p q s,
    option_map _muxer (nth_error (proxies (proxy_close p s)) q)
    = if Nat.eqb p q then option_map (fun _ => None) (nth_error (proxies s) q)
      else option_map _muxer (nth_error (proxies s) q).
Proof.
  intros p q s. unfold proxy_close.
  destruct (Nat.eqb p q) eqn:E.
  - apply Nat.eqb_eq in E. subst q.
    destruct (nth_error (proxies s) p) as [px|] eqn:Hp; [| rewrite Hp; reflexivity].
    destruct (_muxer px) eqn:Hm.
    + cbn [proxies set_proxies]. rewrite nth_error_list_update, Nat.eqb_refl, Hp. reflexivity.
    + rewrite Hp. cbn. rewrite Hm. reflexivity.
  - destruct (nth_error (proxies s) p) as [px|]; [| reflexivity].
    destruct (_muxer px); [| reflexivity].
    cbn [proxies set_proxies]. rewrite nth_error_list_update, E. reflexivity.
Qed.

Lemma proxy_close_shape :
  forall p q s,
    option_map (fun _ => tt) (nth_error (proxies (proxy_close p s)) q)
    = option_map (fun _ => tt) (nth_error (proxies s) q).
Proof.
  intros p q s. unfold proxy_close.
  destruct (nth_error (proxies s) p) as [px|]; [| reflexivity].
  destruct (_muxer px); [| reflexivity].
  cbn [proxies set_proxies]. rewrite nth_error_list_update.
  destruct (Nat.eqb p q), (nth_error (proxies s) q); reflexivity.
Qed.

Lemma close_all_muxer_nth :
  forall entries s q,
    option_map _muxer (nth_error (proxies (close_all entries s)) q)
    = if existsb (Nat.eqb q) (map snd entries)
      then option_map (fun _ => None) (nth_error (proxies s) q)
      else option_map _muxer (nth_error (proxies s) q).
Proof.
  induction entries as [|[k p0] rest IH]; intros s q; [reflexivity |].
  cbn [close_all map snd existsb]. rewrite IH, proxy_close_muxer_nth.
  pose proof (proxy_close_shape p0 q s) as Hsh.
  rewrite (Nat.eqb_sym p0 q).
  destruct (nth_error (proxies (proxy_close p0 s)) q), (nth_error (proxies s) q);
    try discriminate Hsh;
    destruct (Nat.eqb q p0), (existsb (Nat.eqb q) (map snd rest)); reflexivity.
Qed.

Lemma proxy_close_fields :
  forall p s,
    nameOwnerWatched (proxy_close p s) = nameOwnerWatched s /\
    _profileManager (proxy_close p s) = _profileManager s /\
    manager_destroys (trace (proxy_close p s)) = manager_destroys (trace s).
Proof. intros p s. unfold proxy_close. destruct_matches; repeat split. Qed.

Lemma close_all_fields :
  forall entries s,
    nameOwnerWatched (close_all entries s) = nameOwnerWatched s /\
    _profileManager (close_all entries s) = _profileManager s /\
    manager_destroys (trace (close_all entries s)) = manager_destroys (trace s).
Proof.
  induction entries as [|[k p0] rest IH]; intros s; [repeat split |].
  cbn [close_all]. destruct (IH (proxy_close p0 s)) as (H1 & H2 & H3).
  destruct (proxy_close_fields p0 s) as (H4 & H5 & H6).
  rewrite H1, H2, H3, H4, H5, H6. repeat split.
Qed.

Lemma destroy_fields :
  forall s,
    nameOwnerWatched (destroy s) = false /\ _profileManager (destroy s) = false /\
    manager_destroys (trace (destroy s))
      = (if _profileManager s then 1 else 0) + manager_destroys (trace s).
Proof.
  intros s. unfold destroy.
  set (s1 := set_teardown false (_profileManager s) (emit (E_Disconnect (_nameOwnerChangedId s)) s)).
  destruct (close_all_fields (_devices s1) s1) as (H1 & H2 & H3).
  assert (E : forall s2, nameOwnerWatched s2 = false -> _profileManager s2 = _profileManager s ->
            manager_destroys (trace s2) = manager_destroys (trace s) ->
            nameOwnerWatched (if _profileManager s2
                              then set_teardown (nameOwnerWatched s2) false (emit E_ProfileManagerDestroy s2)
                              else s2) = false /\
            _profileManager (if _profileManager s2
                             then set_teardown (nameOwnerWatched s2) false (emit E_ProfileManagerDestroy s2)
                             else s2) = false /\
            manager_destroys (trace (if _profileManager s2
                              then set_teardown (nameOwnerWatched s2) false (emit E_ProfileManagerDestroy s2)
                              else s2))
              = (if _profileManager s then 1 else 0) + manager_destroys (trace s)).
  { intros s2 W P M. rewrite P. destruct (_profileManager s) eqn:Hpm.
    - cbn [nameOwnerWatched _profileManager trace set_teardown emit]. rewrite W.
      unfold manager_destroys in *. cbn. rewrite M. repeat split.
    - rewrite W, P, M. repeat split. }
  destruct (_profile (close_all (_devices s1) s1)); apply E;
    unfold manager_destroys in *;
    cbn [nameOwnerWatched _profileManager trace emit filter is_manager_destroy];
    rewrite ?H1, ?H2, ?H3; subst s1; reflexivity.
Qed.

(** X6: [destroy] leaves every device it tracked without a channel
    reference, stops watching the daemon's name owner and drops the
    profile-manager proxy. *)
Theorem destroy_releases_devices :
  forall s,
    nameOwnerWatched (destroy s) = false /\ _profileManager (destroy s) = false /\
    (forall k p px, In (k, p) (_devices s) -> nth_error (proxies s) p = Some px ->
       option_map _muxer (nth_error (proxies (destroy s)) p) = Some None).
Proof.
  intros s. destruct (destroy_fields s) as (H1 & H2 & _).
  split; [exact H1 |]. split; [exact H2 |].
  intros k p px Hin Hp.
  assert (Hx : existsb (Nat.eqb p) (map snd (_devices s)) = true).
  { apply existsb_exists. exists p. split; [apply (in_map snd) in Hin; exact Hin | apply Nat.eqb_refl]. }
  unfold destroy.
  set (s1 := set_teardown false (_profileManager s) (emit (E_Disconnect (_nameOwnerChangedId s)) s)).
  assert (Hc : option_map _muxer (nth_error (proxies (close_all (_devices s1) s1)) p) = Some None).
  { rewrite close_all_muxer_nth. subst s1. cbn [_devices proxies set_teardown emit].
    rewrite Hx, Hp. reflexivity. }
  destruct (_profile (close_all (_devices s1) s1));
    [destruct (_profileManager (emit E_ProfileDestroy (close_all (_devices s1) s1)))
    | destruct (_profileManager (close_all (_devices s1) s1))];
    exact Hc.
Qed.

(** X7: however many times [destroy] runs, the profile-manager proxy is
    destroyed at most once: exactly once if it was present, never
    otherwise. *)
Theorem destroy_manager_once :
  forall n s,
    manager_destroys (trace (destroy_n (S n) s))
    = (if _profileManager s then 1 else 0) + manager_destroys (trace s).
Proof.
  induction n as [|n IH]; intros s.
  - cbn [destroy_n]. destruct (destroy_fields s) as (_ & _ & H). exact H.
  - change (destroy_n (S (S n)) s) with (destroy_n (S n) (destroy s)).
    rewrite IH. destruct (destroy_fields s) as (_ & H2 & H3). rewrite H2, H3. reflexivity.
Qed.

(** *** Fields only [destroy] writes *)

Section Frame.
Variable P : state -> Prop.
Hypothesis HP : frame_closed P.

Lemma fr_emit : forall e s, P s -> P (emit e s).
Proof. apply HP. Qed.
Lemma fr_set_devices : forall d s, P s -> P (set_devices d s).
Proof. apply HP. Qed.
Lemma fr_set_proxies : forall ps s, P s -> P (set_proxies ps s).
Proof. apply HP. Qed.
Lemma fr_set_muxers : forall ms s, P s -> P (set_muxers ms s).
Proof. apply HP. Qed.
Lemma fr_set_registered : forall r s, P s -> P (set_registered r s).
Proof. apply HP. Qed.
Lemma fr_set_owner : forall o s, P s -> P (set_owner o s).
Proof. apply HP. Qed.

Local Ltac frm :=
  repeat first
    [ assumption
    | apply fr_emit | apply fr_set_devices | apply fr_set_proxies
    | apply fr_set_muxers | apply fr_set_registered | apply fr_set_owner ].

Lemma fr_proxy_close : forall p s, P s -> P (proxy_close p s).
Proof. intros p s H. unfold proxy_close. destruct_matches; frm. Qed.

Lemma fr_RequestDisconnection : forall q s, P s -> P (RequestDisconnection q s).
Proof.
  intros q s H. unfold RequestDisconnection. destruct_matches; auto using fr_proxy_close.
Qed.

Lemma fr_connectDevice : forall p s, P s -> P (_connectDevice p s).
Proof. intros p s H. unfold _connectDevice. destruct_matches; frm. Qed.

Lemma fr_broadcast : forall q s, P s -> P (broadcast q s).
Proof. intros q s H. unfold broadcast. destruct_matches; auto using fr_connectDevice. Qed.

Lemma fr_onDeviceChanged : forall p ch s, P s -> P (_onDeviceChanged p ch s).
Proof.
  intros p ch s H. unfold _onDeviceChanged.
  destruct_matches; auto using fr_connectDevice, fr_RequestDisconnection.
Qed.

Lemma fr_onInterfacesAdded : forall b q ifs s, P s -> P (_onInterfacesAdded b q ifs s).
Proof.
  intros b q ifs. induction ifs as [|i rest IH]; intros s H; simpl; [exact H |].
  apply IH. unfold added_iface. cbv beta zeta. destruct_matches; frm.
Qed.

Lemma fr_onInterfacesRemoved : forall q ifs s, P s -> P (_onInterfacesRemoved q ifs s).
Proof.
  intros q ifs s H. unfold _onInterfacesRemoved. destruct ifs as [|i0 ifs0]; [exact H |].
  revert s H. generalize (i0 :: ifs0) as l.
  induction l as [|i rest IH]; intros s H; simpl; [exact H |].
  apply IH. unfold removed_iface. cbv beta zeta. destruct_matches; frm.
  apply fr_RequestDisconnection. frm.
Qed.

Lemma fr_unbind_loop : forall entries s, P s -> P (unbind_loop entries s).
Proof.
  induction entries as [|[k p] rest IH]; intros s H; simpl; [exact H |].
  apply IH. frm.
Qed.

Lemma fr_add_objects : forall b objs s, P s -> P (add_objects b objs s).
Proof.
  intros b. induction objs as [|[k o] rest IH]; intros s H; simpl; [exact H |].
  apply IH. apply fr_onInterfacesAdded. exact H.
Qed.

Lemma fr_onNameOwnerChanged : forall b s, P s -> P (_onNameOwnerChanged b s).
Proof.
  intros b s H. unfold _onNameOwnerChanged. cbv beta zeta.
  destruct_matches; repeat (frm; try apply fr_unbind_loop; try apply fr_add_objects).
Qed.

Lemma fr_NewConnection :
  forall q fd neg ens s, P s -> P (fst (NewConnection q fd neg ens s)).
Proof.
  intros q fd neg ens s H. unfold NewConnection. cbv beta zeta.
  destruct_matches; cbn [fst]; repeat (frm; try apply fr_proxy_close).
Qed.

Lemma fr_vfunc_g_signal : forall b n q ifs s, P s -> P (vfunc_g_signal b n q ifs s).
Proof.
  intros b n q ifs s H. unfold vfunc_g_signal.
  destruct_matches; auto using fr_onInterfacesAdded, fr_onInterfacesRemoved.
Qed.

(** Every event but [EvDestroy] keeps [P]. *)
Lemma fr_step : forall b e s, e <> EvDestroy -> P s -> P (step b e s).
Proof.
  intros b e s He H. destruct e; simpl.
  - apply fr_vfunc_g_signal. exact H.
  - destruct_matches; try apply fr_onDeviceChanged; frm.
  - destruct_matches; try apply fr_onNameOwnerChanged; frm.
  - apply fr_NewConnection. exact H.
  - apply fr_RequestDisconnection. exact H.
  - apply fr_broadcast. exact H.
  - exfalso. apply He. reflexivity.
Qed.

End Frame.

Lemma frame_watched : forall w, frame_closed (fun s => nameOwnerWatched s = w).
Proof. intros w. repeat split; intros; assumption. Qed.

Lemma step_unwatched :
  forall b e s, nameOwnerWatched s = false ->
    nameOwnerWatched (step b e s) = false /\
    registrations (trace (step b e s)) = registrations (trace s).
Proof.
  intros b e s Hw. split.
  - destruct e;
      try (apply (fr_step _ (frame_watched false)); [discriminate | exact Hw]).
    simpl. apply destroy_fields.
  - destruct e as [| | [o|] | | | |];
      try (apply step_no_registration; intros o' Heq; discriminate Heq).
    simpl. rewrite Hw. reflexivity.
Qed.

(** X8: once [destroy] has run, the name-owner handler stays disconnected
    and no later event (signal, property change, name-owner change, new
    connection, disconnection request, broadcast or a further [destroy])
    issues a [RegisterProfile] request. *)
Theorem destroy_no_reregistration :
  forall b events s,
    let s' := run b events (destroy s) in
    nameOwnerWatched s' = false /\
    registrations (trace s') = registrations (trace (destroy s)).
Proof.
  intros b events s. cbv zeta.
  assert (Hw : nameOwnerWatched (destroy s) = false) by apply destroy_fields.
  revert Hw. generalize (destroy s) as s0.
  induction events as [|e rest IH]; intros s0 Hw; simpl; [split; [exact Hw | reflexivity] |].
  destruct (step_unwatched b e s0 Hw) as [H1 H2].
  destruct (IH (step b e s0) H1) as [H3 H4]. split; [exact H3 |].
  rewrite H4. exact H2.
Qed.

(** *** Invariants of the tracked devices and their channels *)

Lemma nth_error_snoc_old :
  forall {A} (l : list A) x n y, nth_error l n = Some y -> nth_error (l ++ [x]) n = Some y.
Proof.
  intros A l x n y H. rewrite nth_error_app1; [exact H |].
  apply nth_error_Some. rewrite H. discriminate.
Qed.

Lemma nth_error_snoc_last :
  forall {A} (l : list A) x, nth_error (l ++ [x]) (length l) = Some x.
Proof. intros A l x. rewrite nth_error_app2, Nat.sub_diag; reflexivity. Qed.

Lemma nth_error_snoc_cases :
  forall {A} (l : list A) x n y, nth_error (l ++ [x]) n = Some y ->
    nth_error l n = Some y \/ (n = length l /\ y = x).
Proof.
  intros A l x n y H. destruct (Nat.lt_ge_cases n (length l)) as [Hl|Hl].
  - left. rewrite nth_error_app1 in H; assumption.
  - right. rewrite nth_error_app2 in H by exact Hl.
    destruct (n - length l) eqn:E; simpl in H.
    + split; [lia | congruence].
    + destruct n0; discriminate H.
Qed.

Lemma map_get_In : forall k m v, map_get k m = Some v -> In (k, v) m.
Proof.
  intros k m. induction m as [|[k' v'] t IH]; intros v H; simpl in H; [discriminate |].
  destruct (String.eqb k k') eqn:E.
  - apply String.eqb_eq in E. subst. injection H as <-. left. reflexivity.
  - right. apply IH. exact H.
Qed.

Lemma map_set_In :
  forall q v m x, In x (map_set q v m) -> x = (q, v) \/ In x m.
Proof.
  intros q v m. induction m as [|[k' v'] t IH]; intros x H; simpl in H.
  - destruct H as [H|[]]. left. symmetry. exact H.
  - destruct (String.eqb q k'); simpl in H.
    + destruct H as [H|H]; [left; symmetry; exact H | right; right; exact H].
    + destruct H as [H|H]; [right; left; exact H |].
      destruct (IH x H) as [H'|H']; [left; exact H' | right; right; exact H'].
Qed.

Lemma map_delete_In :
  forall q m k v, NoDup (map fst m) -> In (k, v) (map_delete q m) -> k <> q /\ In (k, v) m.
Proof.
  intros q m. induction m as [|[k' v'] t IH]; intros k v Hnd H; simpl in H; [contradiction |].
  inversion Hnd as [|x l Hni Hnd']; subst.
  destruct (String.eqb q k') eqn:E.
  - apply String.eqb_eq in E. subst k'. split; [| right; exact H].
    intros ->. apply Hni. apply (in_map fst) in H. exact H.
  - destruct H as [H|H].
    + injection H as <- <-. split; [| left; reflexivity].
      intros ->. rewrite String.eqb_refl in E. discriminate.
    + destruct (IH k v Hnd' H) as [H1 H2]. split; [exact H1 | right; exact H2].
Qed.

(** The [kept] relation and the operations that only touch the channel side
    of a proxy. *)

Lemma kept_refl : forall s, kept s s.
Proof. intros s. split; [reflexivity |]. intros p px H. exists px. auto. Qed.

Lemma kept_trans : forall s1 s2 s3, kept s1 s2 -> kept s2 s3 -> kept s1 s3.
Proof.
  intros s1 s2 s3 [D1 H1] [D2 H2]. split; [congruence |].
  intros p px Hp. destruct (H1 p px Hp) as (px2 & Hp2 & Pa & W).
  destruct (H2 p px2 Hp2) as (px3 & Hp3 & Pa' & W'). exists px3. split; [exact Hp3 |]. split; congruence.
Qed.

Lemma kept_tracked : forall s s', kept s s' -> tracked_ok s -> tracked_ok s'.
Proof.
  intros s s' [D H] [Nd T]. unfold tracked_ok. rewrite D. split; [exact Nd |].
  intros k p Hin. destruct (T k p Hin) as (px & Hp & Pa & W).
  destruct (H p px Hp) as (px' & Hp' & Pa' & W'). exists px'. split; [exact Hp' |]. split; congruence.
Qed.

Lemma kept_update :
  forall p f s,
    (forall px, g_object_path (f px) = g_object_path px /\
                deviceChangedConnected (f px) = deviceChangedConnected px) ->
    kept s (set_proxies (list_update p f (proxies s)) s).
Proof.
  intros p f s Hf. split; [reflexivity |]. intros q px Hq.
  cbn [proxies set_proxies]. rewrite nth_error_list_update.
  destruct (Nat.eqb p q); rewrite Hq; [exists (f px); split; [reflexivity | apply Hf] |].
  exists px. auto.
Qed.

Lemma kept_update_r :
  forall p f ps s x,
    ps = proxies x -> kept s x ->
    (forall px, g_object_path (f px) = g_object_path px /\
                deviceChangedConnected (f px) = deviceChangedConnected px) ->
    kept s (set_proxies (list_update p f ps) x).
Proof. intros p f ps s x -> H Hf. eapply kept_trans; [exact H | apply kept_update; exact Hf]. Qed.

Lemma kept_emit : forall e s x, kept s x -> kept s (emit e x).
Proof. intros e s x H. exact H. Qed.
Lemma kept_set_muxers : forall ms s x, kept s x -> kept s (set_muxers ms x).
Proof. intros ms s x H. exact H. Qed.
Lemma kept_set_registered : forall r s x, kept s x -> kept s (set_registered r x).
Proof. intros r s x H. exact H. Qed.
Lemma kept_set_owner : forall o s x, kept s x -> kept s (set_owner o x).
Proof. intros o s x H. exact H. Qed.
Lemma kept_set_teardown : forall w pm s x, kept s x -> kept s (set_teardown w pm x).
Proof. intros w pm s x H. exact H. Qed.

Ltac kept_solve :=
  repeat first
    [ apply kept_refl
    | apply kept_emit | apply kept_set_muxers | apply kept_set_registered
    | apply kept_set_owner | apply kept_set_teardown
    | apply kept_update_r; [reflexivity | | intros ?; split; reflexivity] ].

Lemma kept_proxy_close : forall p s, kept s (proxy_close p s).
Proof.
  intros p s. unfold proxy_close. destruct_matches; try apply kept_refl.
  apply kept_update_r; [reflexivity | | intros px; split; reflexivity].
  apply kept_set_muxers, kept_emit, kept_refl.
Qed.

Lemma kept_proxy_close_r : forall p s x, kept s x -> kept s (proxy_close p x).
Proof. intros p s x H. eapply kept_trans; [exact H | apply kept_proxy_close]. Qed.

Lemma kept_RequestDisconnection : forall q s, kept s (RequestDisconnection q s).
Proof. intros q s. unfold RequestDisconnection. destruct_matches; auto using kept_refl, kept_proxy_close. Qed.

Lemma kept_connectDevice : forall p s, kept s (_connectDevice p s).
Proof. intros p s. unfold _connectDevice. destruct_matches; kept_solve. Qed.

Lemma kept_broadcast : forall q s, kept s (broadcast q s).
Proof. intros q s. unfold broadcast. destruct_matches; auto using kept_refl, kept_connectDevice. Qed.

Lemma kept_onDeviceChanged : forall p ch s, kept s (_onDeviceChanged p ch s).
Proof.
  intros p ch s. unfold _onDeviceChanged.
  destruct_matches; auto using kept_refl, kept_connectDevice, kept_RequestDisconnection.
Qed.

Lemma kept_close_all : forall entries s, kept s (close_all entries s).
Proof.
  induction entries as [|[k p] rest IH]; intros s; [apply kept_refl |].
  eapply kept_trans; [apply kept_proxy_close | apply IH].
Qed.

Lemma kept_close_all_r : forall entries s x, kept s x -> kept s (close_all entries x).
Proof. intros entries s x H. eapply kept_trans; [exact H | apply kept_close_all]. Qed.

Lemma kept_destroy : forall s, kept s (destroy s).
Proof.
  intros s. unfold destroy. cbv zeta.
  destruct_matches; repeat (kept_solve; try apply kept_close_all_r).
Qed.

Lemma kept_NewConnection :
  forall q fd neg ens s, kept s (fst (NewConnection q fd neg ens s)).
Proof.
  intros q fd neg ens s. unfold NewConnection. cbv zeta.
  destruct_matches; cbn [fst]; repeat (kept_solve; try apply kept_proxy_close_r).
Qed.

(** [tracked_ok] through the operations that add or drop devices. *)

Lemma tracked_conv :
  forall s x, _devices x = _devices s -> proxies x = proxies s -> tracked_ok s -> tracked_ok x.
Proof. intros s x D P H. unfold tracked_ok. rewrite D, P. exact H. Qed.

Lemma tracked_nil : forall s, _devices s = [] -> tracked_ok s.
Proof. intros s D. unfold tracked_ok. rewrite D. split; [constructor | intros k p []]. Qed.

Lemma tracked_added_iface :
  forall b q i s, tracked_ok s -> tracked_ok (added_iface b q i s).
Proof.
  intros b q i s [Nd T]. unfold added_iface. cbv zeta.
  destruct (negb (String.eqb i DEVICE_IFACE)); [split; assumption |].
  destruct (map_has q (_devices s)) eqn:Hh; [split; assumption |].
  destruct (device_proxy b q) as [d|]; [| split; assumption].
  unfold tracked_ok. cbn [_devices proxies emit set_devices set_proxies].
  split; [apply map_set_nodup; exact Nd |].
  intros k p Hin. apply map_set_In in Hin as [Heq|Hin].
  - injection Heq as -> ->. eexists. split; [apply nth_error_snoc_last |]. split; reflexivity.
  - destruct (T k p Hin) as (px & Hp & Pa & W). exists px.
    split; [apply nth_error_snoc_old; exact Hp |]. split; assumption.
Qed.

Lemma tracked_onInterfacesAdded :
  forall b q ifs s, tracked_ok s -> tracked_ok (_onInterfacesAdded b q ifs s).
Proof.
  intros b q ifs. induction ifs as [|i rest IH]; intros s H; simpl; [exact H |].
  apply IH. apply tracked_added_iface. exact H.
Qed.

Lemma tracked_add_objects :
  forall b objs s, tracked_ok s -> tracked_ok (add_objects b objs s).
Proof.
  intros b. induction objs as [|[k o] rest IH]; intros s H; simpl; [exact H |].
  apply IH. apply tracked_onInterfacesAdded. exact H.
Qed.

Lemma tracked_removed_iface :
  forall q i s, tracked_ok s -> tracked_ok (removed_iface q i s).
Proof.
  intros q i s [Nd T]. unfold removed_iface. cbv zeta.
  destruct (negb (String.eqb i DEVICE_IFACE)); [split; assumption |].
  destruct (map_get q (_devices s)) as [n|] eqn:Hg; [| split; assumption].
  set (s1 := set_proxies (list_update n set_proxy_unwatched (proxies s))
               (emit (E_ProxyDisconnect n) s)).
  destruct (kept_RequestDisconnection q s1) as [D K].
  unfold tracked_ok. cbn [_devices proxies emit set_devices]. rewrite D.
  cbn [s1 _devices set_proxies emit].
  split; [apply map_delete_nodup; exact Nd |].
  intros k p Hin. apply map_delete_In in Hin as [Hk Hin]; [| exact Nd].
  destruct (T k p Hin) as (px & Hp & Pa & W).
  destruct (T q n (map_get_In _ _ _ Hg)) as (pxn & Hn & Pan & _).
  assert (Hne : Nat.eqb n p = false).
  { apply Nat.eqb_neq. intros ->. rewrite Hp in Hn. injection Hn as ->. congruence. }
  assert (Hp1 : nth_error (proxies s1) p = Some px).
  { cbn [s1 proxies set_proxies]. rewrite nth_error_list_update, Hne. exact Hp. }
  destruct (K p px Hp1) as (px' & Hp' & Pa' & W').
  exists px'. split; [exact Hp' |]. split; congruence.
Qed.

Lemma tracked_onInterfacesRemoved :
  forall q ifs s, tracked_ok s -> tracked_ok (_onInterfacesRemoved q ifs s).
Proof.
  intros q ifs s H. unfold _onInterfacesRemoved. destruct ifs as [|i0 ifs0]; [exact H |].
  revert s H. generalize (i0 :: ifs0) as l.
  induction l as [|i rest IH]; intros s H; simpl; [exact H |].
  apply IH. apply tracked_removed_iface. exact H.
Qed.

Lemma tracked_onNameOwnerChanged :
  forall b s, tracked_ok s -> tracked_ok (_onNameOwnerChanged b s).
Proof.
  intros b s H. unfold _onNameOwnerChanged. cbv zeta.
  destruct (g_name_owner s).
  - destruct_matches; try exact H; apply tracked_add_objects; exact H.
  - apply tracked_nil.
    destruct (managed_objects b); cbn [_devices emit]; apply unbind_loop_devices; reflexivity.
Qed.

Lemma tracked_vfunc_g_signal :
  forall b n q ifs s, tracked_ok s -> tracked_ok (vfunc_g_signal b n q ifs s).
Proof.
  intros b n q ifs s H. unfold vfunc_g_signal.
  destruct_matches; auto using tracked_onInterfacesAdded, tracked_onInterfacesRemoved.
Qed.

(** [channel_ok] through every operation. *)

Lemma channel_conv :
  forall s x, proxies x = proxies s -> muxers x = muxers s -> channel_ok s -> channel_ok x.
Proof. intros s x P M H. unfold channel_ok. rewrite P, M. exact H. Qed.

Lemma channel_update_r :
  forall p f ps x,
    ps = proxies x -> (forall px, _muxer (f px) = _muxer px) ->
    channel_ok x -> channel_ok (set_proxies (list_update p f ps) x).
Proof.
  intros p f ps x -> Hf H q px m Hq Hm. cbn [proxies set_proxies] in Hq.
  rewrite nth_error_list_update in Hq. cbn [muxers set_proxies].
  destruct (Nat.eqb p q).
  - destruct (nth_error (proxies x) q) as [px0|] eqn:E; [| discriminate Hq].
    injection Hq as <-. rewrite Hf in Hm. exact (H q px0 m E Hm).
  - exact (H q px m Hq Hm).
Qed.

Lemma channel_proxy_close : forall p s, channel_ok s -> channel_ok (proxy_close p s).
Proof.
  intros p s H. unfold proxy_close.
  destruct (nth_error (proxies s) p) as [px|] eqn:Hp; [| exact H].
  destruct (_muxer px) as [m|] eqn:Hm; [| exact H].
  destruct (H p px m Hp Hm) as (mx0 & Hmx0 & Ow0 & _).
  intros q pq m' Hq Hm'. cbn [proxies muxers set_proxies set_muxers emit] in *.
  rewrite nth_error_list_update in Hq. rewrite nth_error_list_update.
  destruct (Nat.eqb p q) eqn:E.
  - apply Nat.eqb_eq in E. subst q. rewrite Hp in Hq. injection Hq as <-. discriminate Hm'.
  - destruct (H q pq m' Hq Hm') as (mx & Hmx & Ow & Op).
    destruct (Nat.eqb m m') eqn:E'.
    + apply Nat.eqb_eq in E'. subst m'. rewrite Hmx0 in Hmx. injection Hmx as <-.
      apply Nat.eqb_neq in E. congruence.
    + exists mx. auto.
Qed.

Lemma channel_RequestDisconnection :
  forall q s, channel_ok s -> channel_ok (RequestDisconnection q s).
Proof. intros q s H. unfold RequestDisconnection. destruct_matches; auto using channel_proxy_close. Qed.

Lemma channel_connectDevice : forall p s, channel_ok s -> channel_ok (_connectDevice p s).
Proof. intros p s H. unfold _connectDevice. destruct_matches; exact H. Qed.

Lemma channel_broadcast : forall q s, channel_ok s -> channel_ok (broadcast q s).
Proof. intros q s H. unfold broadcast. destruct_matches; auto using channel_connectDevice. Qed.

Lemma channel_onDeviceChanged :
  forall p ch s, channel_ok s -> channel_ok (_onDeviceChanged p ch s).
Proof.
  intros p ch s H. unfold _onDeviceChanged.
  destruct_matches; auto using channel_connectDevice, channel_RequestDisconnection.
Qed.

Lemma channel_added_iface :
  forall b q i s, channel_ok s -> channel_ok (added_iface b q i s).
Proof.
  intros b q i s H. unfold added_iface. cbv zeta. destruct_matches; try exact H.
  intros p px m Hp Hm. cbn [proxies muxers emit set_devices set_proxies] in *.
  apply nth_error_snoc_cases in Hp as [Hp|[_ ->]]; [exact (H p px m Hp Hm) | discriminate Hm].
Qed.

Lemma channel_onInterfacesAdded :
  forall b q ifs s, channel_ok s -> channel_ok (_onInterfacesAdded b q ifs s).
Proof.
  intros b q ifs. induction ifs as [|i rest IH]; intros s H; simpl; [exact H |].
  apply IH. apply channel_added_iface. exact H.
Qed.

Lemma channel_add_objects :
  forall b objs s, channel_ok s -> channel_ok (add_objects b objs s).
Proof.
  intros b. induction objs as [|[k o] rest IH]; intros s H; simpl; [exact H |].
  apply IH. apply channel_onInterfacesAdded. exact H.
Qed.

Lemma channel_removed_iface :
  forall q i s, channel_ok s -> channel_ok (removed_iface q i s).
Proof.
  intros q i s H. unfold removed_iface. cbv zeta. destruct_matches; try exact H.
  apply (channel_conv (RequestDisconnection q
           (set_proxies (list_update n set_proxy_unwatched (proxies s))
              (emit (E_ProxyDisconnect n) s)))); try reflexivity.
  apply channel_RequestDisconnection.
  apply channel_update_r; [reflexivity | intros px; reflexivity | exact H].
Qed.

Lemma channel_onInterfacesRemoved :
  forall q ifs s, channel_ok s -> channel_ok (_onInterfacesRemoved q ifs s).
Proof.
  intros q ifs s H. unfold _onInterfacesRemoved. destruct ifs as [|i0 ifs0]; [exact H |].
  revert s H. generalize (i0 :: ifs0) as l.
  induction l as [|i rest IH]; intros s H; simpl; [exact H |].
  apply IH. apply channel_removed_iface. exact H.
Qed.

Lemma channel_unbind_loop :
  forall entries s, channel_ok s -> channel_ok (unbind_loop entries s).
Proof.
  induction entries as [|[k p] rest IH]; intros s H; simpl; [exact H |].
  apply IH. apply channel_update_r; [reflexivity | intros px; reflexivity | exact H].
Qed.

Lemma channel_onNameOwnerChanged :
  forall b s, channel_ok s -> channel_ok (_onNameOwnerChanged b s).
Proof.
  intros b s H. unfold _onNameOwnerChanged. cbv zeta.
  destruct_matches; try exact H;
    first [apply channel_add_objects; exact H | apply channel_unbind_loop; exact H].
Qed.

Lemma channel_vfunc_g_signal :
  forall b n q ifs s, channel_ok s -> channel_ok (vfunc_g_signal b n q ifs s).
Proof.
  intros b n q ifs s H. unfold vfunc_g_signal.
  destruct_matches; auto using channel_onInterfacesAdded, channel_onInterfacesRemoved.
Qed.

Lemma channel_attach :
  forall p s, channel_ok s ->
    channel_ok (set_proxies (list_update p (set_proxy_muxer (Some (length (muxers s)))) (proxies s))
                  (set_muxers (muxers s ++ [{| mx_owner := p; mx_open := true |}]) s)).
Proof.
  intros p s H q px m Hq Hm. cbn [proxies muxers set_proxies set_muxers] in *.
  rewrite nth_error_list_update in Hq. destruct (Nat.eqb p q) eqn:E.
  - apply Nat.eqb_eq in E. subst q.
    destruct (nth_error (proxies s) p); [| discriminate Hq].
    injection Hq as <-. cbn in Hm. injection Hm as <-.
    eexists. split; [apply nth_error_snoc_last |]. split; reflexivity.
  - destruct (H q px m Hq Hm) as (mx & Hmx & Ow & Op). exists mx.
    split; [apply nth_error_snoc_old; exact Hmx |]. split; assumption.
Qed.

Lemma channel_NewConnection :
  forall q fd neg ens s, channel_ok s -> channel_ok (fst (NewConnection q fd neg ens s)).
Proof.
  intros q fd neg ens s H. unfold NewConnection. cbv zeta.
  destruct_matches; cbn [fst]; try exact H;
    first [ apply channel_proxy_close, channel_attach, H
          | apply channel_attach, H ].
Qed.

Lemma channel_close_all :
  forall entries s, channel_ok s -> channel_ok (close_all entries s).
Proof.
  induction entries as [|[k p] rest IH]; intros s H; simpl; [exact H |].
  apply IH. apply channel_proxy_close. exact H.
Qed.

Lemma channel_destroy : forall s, channel_ok s -> channel_ok (destroy s).
Proof.
  intros s H. unfold destroy. cbv zeta.
  pose proof (channel_close_all (_devices s)
                (set_teardown false (_profileManager s)
                   (emit (E_Disconnect (_nameOwnerChangedId s)) s)) H) as Hc.
  destruct_matches; exact Hc.
Qed.

Lemma tracked_step : forall b e s, tracked_ok s -> tracked_ok (step b e s).
Proof.
  intros b e s H. destruct e; simpl.
  - apply tracked_vfunc_g_signal. exact H.
  - destruct (nth_error (proxies s) p) as [px|]; [| exact H].
    apply (kept_tracked s); [| exact H].
    assert (K : kept s (set_proxies (list_update p (apply_changes changed) (proxies s)) s)).
    { apply kept_update. intros px'. split; reflexivity. }
    destruct (deviceChangedConnected px); [| exact K].
    eapply kept_trans; [exact K | apply kept_onDeviceChanged].
  - destruct_matches; try apply tracked_onNameOwnerChanged; exact H.
  - exact (kept_tracked _ _ (kept_NewConnection _ _ _ _ _) H).
  - exact (kept_tracked _ _ (kept_RequestDisconnection _ _) H).
  - exact (kept_tracked _ _ (kept_broadcast _ _) H).
  - exact (kept_tracked _ _ (kept_destroy _) H).
Qed.

Lemma channel_step : forall b e s, channel_ok s -> channel_ok (step b e s).
Proof.
  intros b e s H. destruct e; simpl.
  - apply channel_vfunc_g_signal. exact H.
  - destruct (nth_error (proxies s) p) as [px|]; [| exact H].
    assert (K : channel_ok (set_proxies (list_update p (apply_changes changed) (proxies s)) s)).
    { apply channel_update_r; [reflexivity | intros px'; reflexivity | exact H]. }
    destruct (deviceChangedConnected px); [apply channel_onDeviceChanged |]; exact K.
  - destruct_matches; try apply channel_onNameOwnerChanged; exact H.
  - apply channel_NewConnection. exact H.
  - apply channel_RequestDisconnection. exact H.
  - apply channel_broadcast. exact H.
  - apply channel_destroy. exact H.
Qed.

Lemma init_invariants : forall b owner, tracked_ok (_init_async b owner) /\ channel_ok (_init_async b owner).
Proof.
  intros b owner. unfold _init_async. split.
  - apply tracked_onNameOwnerChanged, tracked_nil. reflexivity.
  - apply channel_onNameOwnerChanged. intros p px m Hp. destruct p; discriminate Hp.
Qed.

Lemma run_invariants :
  forall b events s, tracked_ok s -> channel_ok s ->
    tracked_ok (run b events s) /\ channel_ok (run b events s).
Proof.
  intros b events. induction events as [|e rest IH]; intros s Ht Hc; simpl; [split; assumption |].
  apply IH; [apply tracked_step | apply channel_step]; assumption.
Qed.

Lemma reachable_ok :
  forall b owner events,
    tracked_ok (run b events (_init_async b owner)) /\
    channel_ok (run b events (_init_async b owner)).
Proof.
  intros b owner events.
  destruct (init_invariants b owner) as [Ht Hc]. apply run_invariants; assumption.
Qed.

(** X9: in every state the service reaches from [_init_async], whatever the
    bus answers and whatever events follow, the [_devices] Map holds each
    path once, maps it to an existing proxy for that path whose
    [g-properties-changed] handler is connected, and every channel a proxy
    references is an open multiplexed connection created for that proxy. *)
Theorem reachable_invariants :
  forall b owner events,
    let s := run b events (_init_async b owner) in
    tracked_ok s /\ channel_ok s.
Proof.
  intros b owner events. cbv zeta. apply reachable_ok.
Qed.

(** X10: in a reachable state [broadcast(object_path)] either does nothing
    or asks BlueZ to connect our profile on exactly [object_path]. *)
Theorem broadcast_targets_path :
  forall b owner events q,
    let s := run b events (_init_async b owner) in
    broadcast q s = s \/ broadcast q s = emit (E_ConnectProfile q SERVICE_UUID) s.
Proof.
  intros b owner events q. cbv zeta.
  destruct (reachable_ok b owner events) as [[_ T] _].
  set (s := run b events (_init_async b owner)) in *.
  unfold broadcast. destruct (map_get q (_devices s)) as [p|] eqn:Hg; [| left; reflexivity].
  destruct (T q p (map_get_In _ _ _ Hg)) as (px & Hp & Pa & _).
  unfold _connectDevice. rewrite Hp.
  destruct (_muxer px); [left; reflexivity |].
  destruct (Paired (info px)); [right; rewrite Pa; reflexivity | left; reflexivity].
Qed.

Lemma tracked_paths :
  forall s l, (forall k p, In (k, p) l ->
                 exists px, nth_error (proxies s) p = Some px /\ g_object_path px = k) ->
    map g_object_path
      (flat_map (fun '(_, p) => match nth_error (proxies s) p with
                                | Some px => [px] | None => [] end) l)
    = map fst l.
Proof.
  intros s l. induction l as [|[k p] t IH]; intros H; [reflexivity |].
  simpl. destruct (H k p (or_introl eq_refl)) as (px & Hp & Pa). rewrite Hp. simpl.
  rewrite Pa, IH; [reflexivity |]. intros k' p' Hin. apply H. right. exact Hin.
Qed.

Lemma NoDup_map_filter :
  forall {A B} (g : A -> B) f l, NoDup (map g l) -> NoDup (map g (filter f l)).
Proof.
  intros A B g f l. induction l as [|x t IH]; intros Hnd; simpl; [constructor |].
  inversion Hnd as [|y m Hni Hnd']; subst.
  destruct (f x); [| apply IH; exact Hnd'].
  simpl. constructor; [| apply IH; exact Hnd'].
  intros Hin. apply Hni. apply in_map_iff in Hin as (z & Hz & Hin).
  apply filter_In in Hin as [Hin _]. rewrite <- Hz. apply in_map. exact Hin.
Qed.

(** X11: in a reachable state the [devices] getter never lists two proxies
    for the same object path. *)
Theorem devices_paths_unique :
  forall b owner events,
    NoDup (map g_object_path (devices (run b events (_init_async b owner)))).
Proof.
  intros b owner events.
  destruct (reachable_ok b owner events) as [[Nd T] _].
  unfold devices. apply NoDup_map_filter. rewrite tracked_paths; [exact Nd |].
  intros k p Hin. destruct (T k p Hin) as (px & Hp & Pa & _). exists px. auto.
Qed.

(** *** Adding and removing a device *)

Lemma removed_iface_other :
  forall q i s, String.eqb i DEVICE_IFACE = false -> removed_iface q i s = s.
Proof. intros q i s H. unfold removed_iface. rewrite H. reflexivity. Qed.

Lemma removed_loop_untracked :
  forall q ifs s, map_get q (_devices s) = None -> removed_loop q ifs s = s.
Proof.
  intros q ifs. induction ifs as [|i rest IH]; intros s H; [reflexivity |].
  simpl. unfold removed_iface at 1. rewrite H.
  destruct (negb (String.eqb i DEVICE_IFACE)); apply IH; exact H.
Qed.

Lemma map_has_get_none : forall k m, map_has k m = false -> map_get k m = None.
Proof. intros k m. unfold map_has. destruct (map_get k m); [discriminate | reflexivity]. Qed.

Lemma removed_iface_device :
  forall q p s, tracked_ok s -> map_get q (_devices s) = Some p ->
    let s' := removed_iface q DEVICE_IFACE s in
    map_has q (_devices s') = false /\
    option_map deviceChangedConnected (nth_error (proxies s') p) = Some false /\
    option_map _muxer (nth_error (proxies s') p) = Some None.
Proof.
  intros q p s [Nd T] Hg. cbv zeta. unfold removed_iface.
  rewrite String.eqb_refl. cbn [negb]. rewrite Hg. cbv zeta.
  set (s1 := set_proxies (list_update p set_proxy_unwatched (proxies s))
               (emit (E_ProxyDisconnect p) s)).
  destruct (T q p (map_get_In _ _ _ Hg)) as (px & Hp & _ & _).
  assert (Hp1 : nth_error (proxies s1) p = Some (set_proxy_unwatched px)).
  { cbn [s1 proxies set_proxies]. rewrite nth_error_list_update, Nat.eqb_refl, Hp. reflexivity. }
  assert (Hr : RequestDisconnection q s1 = proxy_close p s1).
  { unfold RequestDisconnection. cbn [s1 _devices set_proxies emit]. rewrite Hg. reflexivity. }
  rewrite Hr. cbn [_devices proxies emit set_devices].
  destruct (kept_proxy_close p s1) as [D K]. rewrite D.
  split; [| split].
  - cbn [s1 _devices set_proxies emit]. rewrite map_has_delete by exact Nd.
    rewrite String.eqb_refl. reflexivity.
  - destruct (K p _ Hp1) as (px' & Hp' & _ & W). rewrite Hp'. cbn [option_map]. rewrite W. reflexivity.
  - rewrite proxy_close_muxer_nth, Nat.eqb_refl, Hp1. reflexivity.
Qed.

Lemma removed_releases :
  forall q ifs p s,
    In DEVICE_IFACE ifs -> tracked_ok s -> map_get q (_devices s) = Some p ->
    let s' := _onInterfacesRemoved q ifs s in
    map_has q (_devices s') = false /\
    option_map deviceChangedConnected (nth_error (proxies s') p) = Some false /\
    option_map _muxer (nth_error (proxies s') p) = Some None.
Proof.
  intros q ifs p s Hin Ht Hg. cbv zeta. unfold _onInterfacesRemoved.
  destruct ifs as [|i0 ifs0]; [contradiction |].
  revert s Ht Hg Hin. generalize (i0 :: ifs0) as l.
  induction l as [|i rest IH]; intros s Ht Hg Hin; [contradiction |].
  simpl removed_loop. destruct (String.eqb i DEVICE_IFACE) eqn:Ei.
  - apply String.eqb_eq in Ei. subst i.
    destruct (removed_iface_device q p s Ht Hg) as (H1 & H2 & H3).
    rewrite removed_loop_untracked by (apply map_has_get_none; exact H1).
    auto.
  - rewrite removed_iface_other by exact Ei.
    destruct Hin as [Hi|Hin]; [subst i; rewrite String.eqb_refl in Ei; discriminate |].
    apply IH; assumption.
Qed.

(** X12: an [InterfacesRemoved] signal listing [org.bluez.Device1] for a
    tracked device path forgets the path, disconnects the proxy's
    [g-properties-changed] handler and drops its channel reference. *)
Theorem interfaces_removed_releases :
  forall q ifs p s,
    In DEVICE_IFACE ifs -> tracked_ok s -> map_get q (_devices s) = Some p ->
    let s' := _onInterfacesRemoved q ifs s in
    map_has q (_devices s') = false /\
    option_map deviceChangedConnected (nth_error (proxies s') p) = Some false /\
    option_map _muxer (nth_error (proxies s') p) = Some None.
Proof. intros q ifs p s Hin Ht Hg. apply removed_releases; assumption. Qed.

Lemma unwatched_changes :
  forall b p changes s,
    option_map deviceChangedConnected (nth_error (proxies s) p) = Some false ->
    let s2 := run b (map (EvPropertiesChanged p) changes) s in
    trace s2 = trace s /\ muxers s2 = muxers s /\ _devices s2 = _devices s.
Proof.
  intros b p changes. induction changes as [|c rest IH]; intros s Hw; cbv zeta;
    [repeat split |].
  destruct (nth_error (proxies s) p) as [px|] eqn:Hp; [| discriminate Hw].
  injection Hw as Hw. cbn [map run step]. rewrite Hp, Hw.
  set (s' := set_proxies (list_update p (apply_changes c) (proxies s)) s).
  assert (Hw' : option_map deviceChangedConnected (nth_error (proxies s') p) = Some false).
  { cbn [s' proxies set_proxies]. rewrite nth_error_list_update, Nat.eqb_refl, Hp.
    cbn. rewrite Hw. reflexivity. }
  destruct (IH s' Hw') as (A & B & C). split; [exact A | split; [exact B | exact C]].
Qed.

(** X4: once an [InterfacesRemoved] signal listing [org.bluez.Device1] has
    removed a tracked device, property changes of its proxy (Connected,
    ServicesResolved, any number of them) no longer reach
    [_onDeviceChanged]: no bus call, no channel change, no Map change. *)
Theorem removed_device_silenced :
  forall b q ifs p s changes,
    In DEVICE_IFACE ifs -> tracked_ok s -> map_get q (_devices s) = Some p ->
    let s1 := _onInterfacesRemoved q ifs s in
    let s2 := run b (map (EvPropertiesChanged p) changes) s1 in
    trace s2 = trace s1 /\ muxers s2 = muxers s1 /\ _devices s2 = _devices s1.
Proof.
  intros b q ifs p s changes Hin Ht Hg. cbv zeta.
  destruct (removed_releases q ifs p s Hin Ht Hg) as (_ & Hw & _).
  exact (unwatched_changes b p changes _ Hw).
Qed.

Lemma added_iface_tracked :
  forall b q i s, map_has q (_devices s) = true -> added_iface b q i s = s.
Proof.
  intros b q i s H. unfold added_iface. rewrite H.
  destruct (negb (String.eqb i DEVICE_IFACE)); reflexivity.
Qed.

Lemma onInterfacesAdded_tracked :
  forall b q ifs s, map_has q (_devices s) = true -> _onInterfacesAdded b q ifs s = s.
Proof.
  intros b q ifs. induction ifs as [|i rest IH]; intros s H; [reflexivity |].
  simpl. rewrite added_iface_tracked by exact H. apply IH. exact H.
Qed.

Lemma map_get_set_same : forall k v m, map_get k (map_set k v m) = Some v.
Proof.
  intros k v m. induction m as [|[k' v'] t IH]; simpl.
  - rewrite String.eqb_refl. reflexivity.
  - destruct (String.eqb k k') eqn:E; simpl; [rewrite String.eqb_refl; reflexivity |].
    rewrite E. exact IH.
Qed.

(** X13: an [InterfacesAdded] signal listing [org.bluez.Device1] for an
    untracked path whose device proxy can be built starts tracking the path
    with a new proxy for it (handler connected, no channel), stored after
    the existing ones, and emits [notify::devices] once and nothing else. *)
Theorem interfaces_added_tracks :
  forall b q ifs d s,
    In DEVICE_IFACE ifs -> map_has q (_devices s) = false -> device_proxy b q = Some d ->
    let s' := _onInterfacesAdded b q ifs s in
    map_get q (_devices s') = Some (length (proxies s)) /\
    nth_error (proxies s') (length (proxies s))
      = Some {| g_object_path := q; info := d; _muxer := None;
                deviceChangedConnected := true |} /\
    trace s' = E_NotifyDevices :: trace s.
Proof.
  intros b q ifs d s Hin Hh Hd. cbv zeta. revert s Hh.
  induction ifs as [|i rest IH]; intros s Hh; [contradiction |].
  simpl _onInterfacesAdded. destruct (String.eqb i DEVICE_IFACE) eqn:Ei.
  - apply String.eqb_eq in Ei. subst i.
    unfold added_iface. rewrite String.eqb_refl, Hh, Hd. cbn [negb]. cbv zeta.
    rewrite onInterfacesAdded_tracked.
    + cbn [_devices proxies trace emit set_devices set_proxies]. split; [| split].
      * apply map_get_set_same.
      * apply nth_error_snoc_last.
      * reflexivity.
    + cbn [_devices emit set_devices set_proxies]. unfold map_has. rewrite map_get_set_same. reflexivity.
  - unfold added_iface at 1 2 3. rewrite Ei. cbn [negb].
    destruct Hin as [Hi|Hin]; [subst i; rewrite String.eqb_refl in Ei; discriminate |].
    apply IH; assumption.
Qed.

Lemma connected_state_tracked : tracked_ok connected_state.
Proof.
  split.
  - vm_compute. repeat constructor. simpl. tauto.
  - intros k p Hin. vm_compute in Hin. destruct Hin as [Hk|[]].
    injection Hk as <- <-. eexists. vm_compute. split; [reflexivity | split; reflexivity].
Qed.

Lemma interfaces_removed_releases_witness :
  tracked_ok connected_state /\
  let s' := _onInterfacesRemoved D1 [DEVICE_IFACE] connected_state in
  map_has D1 (_devices s') = false /\
  option_map deviceChangedConnected (nth_error (proxies s') 0) = Some false /\
  option_map _muxer (nth_error (proxies s') 0) = Some None.
Proof.
  split; [exact connected_state_tracked |].
  apply (interfaces_removed_releases D1 [DEVICE_IFACE] 0 connected_state);
    [left; reflexivity | exact connected_state_tracked | vm_compute; reflexivity].
Defined.

Lemma removed_device_silenced_witness :
  tracked_ok connected_state /\
  let s1 := _onInterfacesRemoved D1 [DEVICE_IFACE] connected_state in
  let s2 := run (bus_with true)
              (map (EvPropertiesChanged 0)
                 [{| ch_Paired := None; ch_Connected := Some true;
                     ch_ServicesResolved := None; ch_UUIDs := None |};
                  {| ch_Paired := None; ch_Connected := None;
                     ch_ServicesResolved := Some true; ch_UUIDs := None |}]) s1 in
  trace s2 = trace s1 /\ muxers s2 = muxers s1 /\ _devices s2 = _devices s1.
Proof.
  split; [exact connected_state_tracked |].
  apply (removed_device_silenced (bus_with true) D1 [DEVICE_IFACE] 0 connected_state);
    [left; reflexivity | exact connected_state_tracked | vm_compute; reflexivity].
Defined.

Lemma interfaces_added_tracks_witness :
  In DEVICE_IFACE ["org.freedesktop.DBus.Properties"; DEVICE_IFACE] /\
  map_has D1 (_devices (initial (Some ":1.5"))) = false /\
  device_proxy (bus_with true) D1 = Some D1_info /\
  let s' := _onInterfacesAdded (bus_with true) D1
              ["org.freedesktop.DBus.Properties"; DEVICE_IFACE] (initial (Some ":1.5")) in
  map_get D1 (_devices s') = Some 0 /\
  nth_error (proxies s') 0
    = Some {| g_object_path := D1; info := D1_info; _muxer := None;
              deviceChangedConnected := true |} /\
  trace s' = E_NotifyDevices :: trace (initial (Some ":1.5")).
Proof.
  split; [right; left; reflexivity |]. split; [vm_compute; reflexivity |].
  split; [vm_compute; reflexivity |].
  apply (interfaces_added_tracks (bus_with true) D1
           ["org.freedesktop.DBus.Properties"; DEVICE_IFACE] D1_info (initial (Some ":1.5")));
    [right; left; reflexivity | vm_compute; reflexivity | vm_compute; reflexivity].
Defined.
